(** * Parameter grouping and settings resolution of the Keycloak stack

    A shallow embedding of [src/stack.ts]: the [SolutionStack] base class
    (parameter declaration and the parameter-group registry exported as
    [AWS::CloudFormation::Interface] metadata) and the [KeycloakStack]
    constructor (mode-conditional parameter declaration and the settings
    handed to the [KeyCloak] construct).

    The classes mutate [this]; here the instance is an explicit state
    threaded through a small state-and-exception monad.  Values that the
    CDK only fills in at deploy time (parameter references, [Fn.select])
    are kept symbolic, as the CloudFormation intrinsics they stand for. *)

From Stdlib Require Import List String Ascii Bool ZArith NArith Lia.
From Stdlib Require Import Permutation DecimalString DecimalN.
Import ListNotations.
Open Scope string_scope.
Open Scope list_scope.

Set Implicit Arguments.

(* ------------------------------------------------------------------ *)
(** ** JavaScript objects used as string-keyed maps *)
(* ------------------------------------------------------------------ *)

Module JsObject.

(** Own properties in creation order.  A key bound more than once
    denotes its first binding; [set] never creates such a list.

    Only own properties are kept: what an object inherits from
    [Object.prototype] is not part of it.  Reading and writing therefore
    agree with the code for keys outside [Object_prototype_names], on an
    object whose prototype was never replaced by a write to "__proto__";
    results about such reads and writes carry these conditions. *)
Definition obj (A : Type) : Type := list (string * A).

Definition empty {A} : obj A := [].

(** The own property [k] of [o].  For a key that is not inherited this is
    [o[k]], with [None] for [undefined]. *)
Fixpoint get {A} (o : obj A) (k : string) : option A :=
  match o with
  | [] => None
  | (k', v) :: o' => if String.eqb k k' then Some v else get o' k
  end.

(** [o[k] = v] for a key other than "__proto__": an existing property
    keeps its position, a new one is added last. *)
Fixpoint set {A} (o : obj A) (k : string) (v : A) : obj A :=
  match o with
  | [] => [(k, v)]
  | (k', v') :: o' =>
      if String.eqb k k' then (k', v) :: o' else (k', v') :: set o' k v
  end.

(** Each name once, at the position of its first occurrence. *)
Fixpoint distinct (l : list string) : list string :=
  match l with
  | [] => []
  | k :: l' => k :: filter (fun k' => negb (String.eqb k' k)) (distinct l')
  end.

Definition own_names {A} (o : obj A) : list string :=
  distinct (map fst o).

(** A key is an array index when it is the canonical decimal form of an
    integer below 2^32 - 1. *)
Definition array_index (k : string) : option N :=
  match NilZero.uint_of_string k with
  | Some d =>
      let n := N.of_uint d in
      if String.eqb (NilZero.string_of_uint (N.to_uint n)) k
         && (n <? 4294967295)%N
      then Some n else None
  | None => None
  end.

Definition is_index (k : string) : bool :=
  match array_index k with Some _ => true | None => false end.

Definition index_of (k : string) : N :=
  match array_index k with Some n => n | None => 0%N end.

Fixpoint insert_by_index (k : string) (l : list string) : list string :=
  match l with
  | [] => [k]
  | k' :: l' =>
      if (index_of k <=? index_of k')%N then k :: l
      else k' :: insert_by_index k l'
  end.

Definition sort_by_index (l : list string) : list string :=
  fold_right insert_by_index [] l.

(** [Object.keys(o)]: array-index keys in ascending numeric order, then
    the other keys in creation order. *)
Definition keys {A} (o : obj A) : list string :=
  let names := own_names o in
  sort_by_index (filter is_index names)
    ++ filter (fun k => negb (is_index k)) names.

(** The property names every object inherits from [Object.prototype]. *)
Definition Object_prototype_names : list string :=
  [ "constructor"; "hasOwnProperty"; "isPrototypeOf"; "propertyIsEnumerable";
    "toLocaleString"; "toString"; "valueOf";
    "__proto__"; "__defineGetter__"; "__defineSetter__";
    "__lookupGetter__"; "__lookupSetter__" ].

Definition inherited_name (k : string) : bool :=
  existsb (String.eqb k) Object_prototype_names.

End JsObject.

Import JsObject.

(* ------------------------------------------------------------------ *)
(** ** Completions: a computation on an instance either returns or throws *)
(* ------------------------------------------------------------------ *)

Inductive JsError : Type :=
| TypeError (message : string).

Inductive Completion (A : Type) : Type :=
| Normal (a : A)
| Throw (e : JsError).

Arguments Normal {A} a.
Arguments Throw {A} e.

(** A method of an instance with state [S]. *)
Definition Method (S A : Type) : Type := S -> Completion (A * S).

Definition ret {S A} (a : A) : Method S A := fun s => Normal (a, s).

Definition bind {S A B} (m : Method S A) (f : A -> Method S B) : Method S B :=
  fun s =>
    match m s with
    | Normal (a, s') => f a s'
    | Throw e => Throw e
    end.

Definition throw {S A} (e : JsError) : Method S A := fun _ => Throw e.
Definition read {S} : Method S S := fun s => Normal (s, s).
Definition modify {S} (f : S -> S) : Method S unit := fun s => Normal (tt, f s).

Declare Scope method_scope.
Delimit Scope method_scope with method.
Notation "x <- c1 ;; c2" := (bind c1 (fun x => c2))
  (at level 61, c1 at next level, right associativity) : method_scope.
Notation "c1 ;; c2" := (bind c1 (fun _ => c2))
  (at level 61, right associativity) : method_scope.
Open Scope method_scope.

(** [for (const x of l) body(x)] *)
Fixpoint for_of {S A} (l : list A) (body : A -> Method S unit) : Method S unit :=
  match l with
  | [] => ret tt
  | x :: l' => body x ;; for_of l' body
  end.

(** [l.map(f)] where [f] may throw. *)
Fixpoint array_map {S A B} (f : A -> Method S B) (l : list A) : Method S (list B) :=
  match l with
  | [] => ret []
  | x :: l' => y <- f x ;; ys <- array_map f l' ;; ret (y :: ys)
  end.

(** [l.map((x, index) => f(x, index))] *)
Definition array_mapi {A B} (f : A -> nat -> B) (l : list A) : list B :=
  map (fun xi => f (fst xi) (snd xi)) (combine l (seq 0 (List.length l))).


(* ------------------------------------------------------------------ *)
(** ** Values of the CDK that the stack handles *)
(* ------------------------------------------------------------------ *)

(** Literals found in parameter properties ([default?: any]). *)
Inductive JsValue : Type :=
| JsString (s : string)
| JsNumber (n : Z).

(** JavaScript truthiness of an optional boolean and of a string. *)
Definition truthy (b : option bool) : bool :=
  match b with Some true => true | _ => false end.

Definition truthy_string (s : string) : bool :=
  negb (String.eqb s "").

(** [x ?? d] *)
Definition nullish_or {A} (x : option A) (d : A) : A :=
  match x with Some v => v | None => d end.

Module CfnParameterProps.
Record t : Type := mk {
  type : option string;
  description : option string;
  minLength : option Z;
  minValue : option Z;
  allowedValues : option (list string);
  default : option JsValue
}.
(** The object literal [{}]. *)
Definition none : t := mk None None None None None None.
End CfnParameterProps.

(** A declared parameter: the id it was created under, the logical id the
    stack gave it, and its properties. *)
Record CfnParameter : Type := {
  node_id : string;
  logicalId : string;
  props : CfnParameterProps.t
}.

(** What a [Ref] points at: a declared parameter or a pseudo parameter. *)
Inductive Reference : Type :=
| RefParameter (p : CfnParameter)
| RefPseudo (name : string).

(** Deploy-time expressions ("tokens"). *)
Inductive Intrinsic : Type :=
| Ref (target : Reference)
| FnSelect (index : nat) (listOfObjects : Intrinsic).

(** A [string], [number] or [string[]] as the CDK hands it around: a
    literal, or a token standing for a deploy-time value. *)
Inductive CdkString : Type :=
| StrLit (s : string)
| StrToken (t : Intrinsic).

Inductive CdkNumber : Type :=
| NumLit (n : Z)
| NumToken (t : Intrinsic).

Inductive CdkList : Type :=
| ListToken (t : Intrinsic).

Definition valueAsString (p : CfnParameter) : CdkString :=
  StrToken (Ref (RefParameter p)).
Definition valueAsNumber (p : CfnParameter) : CdkNumber :=
  NumToken (Ref (RefParameter p)).
Definition valueAsList (p : CfnParameter) : CdkList :=
  ListToken (Ref (RefParameter p)).

(** [Fn.select(index, array)] on a list token. *)
Definition Fn_select (index : nat) (array : CdkList) : CdkString :=
  match array with
  | ListToken t => StrToken (FnSelect index t)
  end.

(** [Aws.NO_VALUE] *)
Definition Aws_NO_VALUE : CdkString := StrToken (Ref (RefPseudo "AWS::NoValue")).

Inductive TimeUnit : Type := Days.

Record Duration : Type := {
  amount : CdkNumber;
  time_unit : TimeUnit
}.

(** [Duration.days(n)] *)
Definition Duration_days (n : Z) : Duration :=
  {| amount := NumLit n; time_unit := Days |}.

(** [new ec2.InstanceType(name)] *)
Record InstanceType : Type := new_InstanceType {
  instanceTypeIdentifier : CdkString
}.

Record ISubnet : Type := {
  subnetId : CdkString
}.

Record SubnetSelection : Type := {
  subnets : list ISubnet
}.

Module VpcAttributes.
Record t : Type := {
  vpcId : CdkString;
  vpcCidrBlock : CdkString;
  availabilityZones : list string;
  publicSubnetIds : list CdkString;
  privateSubnetIds : list CdkString;
  isolatedSubnetIds : list CdkString
}.
End VpcAttributes.

Module IVpc.
Record t : Type := {
  vpcId : CdkString;
  vpcCidrBlock : CdkString;
  availabilityZones : list string;
  publicSubnets : list ISubnet;
  privateSubnets : list ISubnet;
  isolatedSubnets : list ISubnet
}.
End IVpc.

(** Modelled from the spec: [ec2.Vpc.fromVpcAttributes] belongs to the CDK
    and is not in src.  The imported network carries the attributes it was
    given and one subnet per subnet id, in the order of the ids (spec 4.2
    step 3: the selected ids "populate" the subnet selections). *)
Definition import_vpc (attrs : VpcAttributes.t) : IVpc.t :=
  {| IVpc.vpcId := VpcAttributes.vpcId attrs;
     IVpc.vpcCidrBlock := VpcAttributes.vpcCidrBlock attrs;
     IVpc.availabilityZones := VpcAttributes.availabilityZones attrs;
     IVpc.publicSubnets :=
       map (fun i => {| subnetId := i |}) (VpcAttributes.publicSubnetIds attrs);
     IVpc.privateSubnets :=
       map (fun i => {| subnetId := i |}) (VpcAttributes.privateSubnetIds attrs);
     IVpc.isolatedSubnets :=
       map (fun i => {| subnetId := i |}) (VpcAttributes.isolatedSubnetIds attrs) |}.

(** Modelled from the spec: the [KeycloakVersion] class of [./keycloak] is
    not in src.  Its static members named by the stack are kept as
    constants and [KeycloakVersion.of] as a free constructor. *)
Inductive KeycloakVersion : Type :=
| V12_0_4
| V15_0_0
| V15_0_1
| V15_0_2
| cbV15_0_2
| KeycloakVersion_of (version : CdkString).

Module AutoScaleTask.
Record t : Type := {
  min : CdkNumber;
  max : CdkNumber;
  targetCpuUtilization : CdkNumber
}.
End AutoScaleTask.

(** The properties handed to [new KeyCloak(this, 'KeyCloak', ...)]. *)
Module KeyCloakProps.
Record t : Type := {
  vpc : option IVpc.t;
  publicSubnets : option SubnetSelection;
  privateSubnets : option SubnetSelection;
  databaseSubnets : option SubnetSelection;
  certificateArn : CdkString;
  auroraServerless : option bool;
  databaseInstanceType : option InstanceType;
  stickinessCookieDuration : Duration;
  nodeCount : CdkNumber;
  autoScaleTask : AutoScaleTask.t;
  env : obj CdkString;
  keycloakVersion : KeycloakVersion
}.
End KeyCloakProps.

(** Children of the stack in the construct tree. *)
Inductive Construct : Type :=
| ParameterConstruct (p : CfnParameter)
| ImportedVpcConstruct (id : string) (v : IVpc.t)
| KeyCloakConstruct (id : string) (p : KeyCloakProps.t).

(* ------------------------------------------------------------------ *)
(** ** [SolutionStack] *)
(* ------------------------------------------------------------------ *)

(** An entry of [ParameterGroups]: [{ Label: { default }, Parameters }]. *)
Record ParameterGroup : Type := {
  Label_default : string;
  Parameters : list string
}.

(** Values stored in [templateOptions.metadata]. *)
Inductive MetadataEntry : Type :=
| CfnInterface (ParameterGroups : list ParameterGroup)
| OtherMetadata (text : string).

Record TemplateOptions : Type := {
  description : option string;
  metadata : option (obj MetadataEntry)
}.

Record SolutionStack : Type := {
  templateOptions : TemplateOptions;
  children : list Construct;
  _paramGroup : obj (list (option CfnParameter))
}.

(** The instance right after [super(scope, id, props)]. *)
Definition new_SolutionStack : SolutionStack :=
  {| templateOptions := {| description := None; metadata := None |};
     children := [];
     _paramGroup := empty |}.

Definition with_description (d : option string) (s : SolutionStack) : SolutionStack :=
  {| templateOptions :=
       {| description := d; metadata := metadata (templateOptions s) |};
     children := children s;
     _paramGroup := _paramGroup s |}.

Definition with_metadata (m : option (obj MetadataEntry)) (s : SolutionStack)
  : SolutionStack :=
  {| templateOptions :=
       {| description := description (templateOptions s); metadata := m |};
     children := children s;
     _paramGroup := _paramGroup s |}.

Definition with_child (c : Construct) (s : SolutionStack) : SolutionStack :=
  {| templateOptions := templateOptions s;
     children := children s ++ [c];
     _paramGroup := _paramGroup s |}.

Definition with_paramGroup (g : obj (list (option CfnParameter)))
  (s : SolutionStack) : SolutionStack :=
  {| templateOptions := templateOptions s;
     children := children s;
     _paramGroup := g |}.

Definition CfnInterfaceKey : string := "AWS::CloudFormation::Interface".

(** The identifiers a group exports for its parameters:
    [params.map(p => p ? p.logicalId : '').filter(id => id)]. *)
Definition exported_ids (params : list (option CfnParameter)) : list string :=
  filter truthy_string
    (map (fun p => match p with Some c => logicalId c | None => "" end) params).

(** [mkgrp(label, params)]; [params.map] throws when [params] is undefined. *)
Definition mkgrp {S} (label : string) (params : option (list (option CfnParameter)))
  : Method S ParameterGroup :=
  match params with
  | Some ps => ret {| Label_default := label; Parameters := exported_ids ps |}
  | None => throw (TypeError "Cannot read properties of undefined (reading 'map')")
  end.

Definition _setParamGroups : Method SolutionStack unit :=
  this <- read ;;
  (match metadata (templateOptions this) with
   | None => modify (with_metadata (Some empty))
   | Some _ => ret tt
   end) ;;
  this <- read ;;
  groups <- array_map (fun key => mkgrp key (get (_paramGroup this) key))
                      (keys (_paramGroup this)) ;;
  match metadata (templateOptions this) with
  | Some m =>
      modify (with_metadata (Some (set m CfnInterfaceKey (CfnInterface groups))))
  | None =>
      throw (TypeError "Cannot set properties of undefined")
  end.

Definition setDescription (d : string) : Method SolutionStack unit :=
  modify (with_description (Some d)).

Definition addGroupParam (props : obj (list (option CfnParameter)))
  : Method SolutionStack unit :=
  for_of (keys props) (fun key =>
    match get props key with
    | Some params =>
        this <- read ;;
        modify (with_paramGroup
                  (set (_paramGroup this) key
                       (params ++ nullish_or (get (_paramGroup this) key) [])))
    | None =>
        throw (TypeError "Cannot read properties of undefined (reading 'concat')")
    end) ;;
  _setParamGroups.

(** The exported structure: the [ParameterGroups] of the interface entry. *)
Definition exportGroups (s : SolutionStack) : option (list ParameterGroup) :=
  match metadata (templateOptions s) with
  | Some m =>
      match get m CfnInterfaceKey with
      | Some (CfnInterface groups) => Some groups
      | _ => None
      end
  | None => None
  end.

(** The identifier sequence exported for one label. *)
Definition group_of (label : string) (groups : list ParameterGroup)
  : option (list string) :=
  option_map Parameters
    (find (fun g => String.eqb (Label_default g) label) groups).

(* ------------------------------------------------------------------ *)
(** ** [KeycloakStack] *)
(* ------------------------------------------------------------------ *)

Record KeycloakStackProps : Type := {
  auroraServerless : option bool;
  fromExistingVPC : option bool
}.

(** The object literal [{}], the default of the constructor's [props]. *)
Definition no_props : KeycloakStackProps :=
  {| auroraServerless := None; fromExistingVPC := None |}.

Module KeycloakSettings.
Record t : Type := {
  certificateArn : CdkString;
  vpc : option IVpc.t;
  publicSubnets : option SubnetSelection;
  privateSubnets : option SubnetSelection;
  databaseSubnets : option SubnetSelection;
  databaseInstanceType : option InstanceType
}.

Definition with_certificateArn (c : CdkString) (s : t) : t :=
  {| certificateArn := c;
     vpc := vpc s;
     publicSubnets := publicSubnets s;
     privateSubnets := privateSubnets s;
     databaseSubnets := databaseSubnets s;
     databaseInstanceType := databaseInstanceType s |}.

Definition with_databaseInstanceType (i : InstanceType) (s : t) : t :=
  {| certificateArn := certificateArn s;
     vpc := vpc s;
     publicSubnets := publicSubnets s;
     privateSubnets := privateSubnets s;
     databaseSubnets := databaseSubnets s;
     databaseInstanceType := Some i |}.

(** [Object.assign(s, { vpc, publicSubnets, privateSubnets, databaseSubnets })] *)
Definition assign_network (v : IVpc.t) (pub priv db : SubnetSelection) (s : t) : t :=
  {| certificateArn := certificateArn s;
     vpc := Some v;
     publicSubnets := Some pub;
     privateSubnets := Some priv;
     databaseSubnets := Some db;
     databaseInstanceType := databaseInstanceType s |}.
End KeycloakSettings.

Record KeycloakStack : Type := {
  base : SolutionStack;
  _keycloakSettings : KeycloakSettings.t
}.

(** The instance after [super(...)] and the field initialiser
    [_keycloakSettings = { certificateArn: '' }]. *)
Definition new_KeycloakStack : KeycloakStack :=
  {| base := new_SolutionStack;
     _keycloakSettings :=
       {| KeycloakSettings.certificateArn := StrLit "";
          KeycloakSettings.vpc := None;
          KeycloakSettings.publicSubnets := None;
          KeycloakSettings.privateSubnets := None;
          KeycloakSettings.databaseSubnets := None;
          KeycloakSettings.databaseInstanceType := None |} |}.

(** A method of the base class run on the derived instance. *)
Definition inherited {A} (m : Method SolutionStack A) : Method KeycloakStack A :=
  fun this =>
    match m (base this) with
    | Normal (a, b) =>
        Normal (a, {| base := b; _keycloakSettings := _keycloakSettings this |})
    | Throw e => Throw e
    end.

Definition update_settings (f : KeycloakSettings.t -> KeycloakSettings.t)
  : Method KeycloakStack unit :=
  modify (fun this =>
            {| base := base this;
               _keycloakSettings := f (_keycloakSettings this) |}).

Definition INSTANCE_TYPES : list string :=
  ["m5.large"; "m5.xlarge"; "m5.2xlarge"; "m5.4xlarge"; "m5.8xlarge";
   "m5a.xlarge"; "m5a.2xlarge"; "m5a.4xlarge"; "m5a.8xlarge"; "m5d.xlarge";
   "m5d.2xlarge"; "m5d.4xlarge"; "m5d.8xlarge"; "m6g.xlarge"; "m6g.2xlarge";
   "m6g.4xlarge"; "m6g.8xlarge"; "c5.xlarge"; "c5.2xlarge"; "c5.4xlarge";
   "c5.9xlarge"; "c5d.xlarge"; "c5d.2xlarge"; "c5d.4xlarge"; "c5d.9xlarge";
   "c5n.xlarge"; "c5n.2xlarge"; "c5n.4xlarge"; "c5n.9xlarge"; "c6g.xlarge";
   "c6g.2xlarge"; "c6g.4xlarge"; "c6g.8xlarge"; "cc2.8xlarge"; "z1d.xlarge";
   "z1d.2xlarge"; "z1d.3xlarge"; "z1d.6xlarge"; "r5.large"; "r5.xlarge";
   "r5.2xlarge"; "r5.4xlarge"; "r5.8xlarge"; "r5a.xlarge"; "r5a.2xlarge";
   "r5a.4xlarge"; "r5a.8xlarge"; "r5d.xlarge"; "r5d.2xlarge"; "r5d.4xlarge";
   "r5d.8xlarge"; "r6g.xlarge"; "r6g.2xlarge"; "r6g.4xlarge"; "r6g.8xlarge";
   "cr1.8xlarge"; "i3.xlarge"; "i3.2xlarge"; "i3.4xlarge"; "i3.8xlarge";
   "i3en.xlarge"; "i3en.2xlarge"; "i3en.3xlarge"; "i3en.6xlarge"; "d2.xlarge";
   "d2.2xlarge"; "d2.4xlarge"; "d2.8xlarge"; "g4dn.xlarge"; "g4dn.2xlarge";
   "g4dn.4xlarge"; "g4dn.8xlarge"; "p2.xlarge"; "p2.8xlarge"; "p3.2xlarge";
   "p3.8xlarge"].

(** What a template literal prints for a possibly undefined string. *)
Definition interpolate (x : option string) : string :=
  match x with Some s => s | None => "undefined" end.

Definition newline : string := String (ascii_of_nat 10) EmptyString.

Section Stack.

(** The logical id the stack allocates for a parameter created under
    [id]; allocation is the CDK's and is left open. *)
Variable allocateLogicalId : string -> string.

(** The text a [KeycloakVersion] prints as inside a template literal;
    the class is not in src. *)
Variable KeycloakVersion_toString : KeycloakVersion -> string.

(** [new CfnParameter(this, id, props)] *)
Definition makeParam (id : string) (props : option CfnParameterProps.t)
  : Method SolutionStack CfnParameter :=
  let p := {| node_id := id;
              logicalId := allocateLogicalId id;
              props := nullish_or props CfnParameterProps.none |} in
  modify (with_child (ParameterConstruct p)) ;;
  ret p.

(** [ec2.Vpc.fromVpcAttributes(this, id, attrs)] *)
Definition Vpc_fromVpcAttributes (id : string) (attrs : VpcAttributes.t)
  : Method SolutionStack IVpc.t :=
  let v := import_vpc attrs in
  modify (with_child (ImportedVpcConstruct id v)) ;;
  ret v.

(** [new KeyCloak(this, id, props)] *)
Definition new_KeyCloak (id : string) (p : KeyCloakProps.t)
  : Method SolutionStack unit :=
  modify (with_child (KeyCloakConstruct id p)).

Definition keycloakVersion_description : string :=
  "List of Versions " ++ newline ++
  "        " ++ KeycloakVersion_toString V12_0_4 ++ ", " ++ newline ++
  "        " ++ KeycloakVersion_toString V15_0_0 ++ "," ++ newline ++
  "        " ++ KeycloakVersion_toString V15_0_1 ++ "," ++ newline ++
  "        " ++ KeycloakVersion_toString V15_0_2 ++ "," ++ newline ++
  "        " ++ KeycloakVersion_toString cbV15_0_2 ++ newline ++
  "        ".

(** The constructor body.  [VERSION] is [process.env.VERSION]; [props]
    is [None] when the caller omits the argument. *)
Definition constructor (VERSION : option string) (props : option KeycloakStackProps)
  : Method KeycloakStack unit :=
  let props := nullish_or props no_props in
  let dbMsg := if truthy (auroraServerless props)
               then "using aurora serverless" else "rds mysql" in
  let vpcMsg := if truthy (fromExistingVPC props)
                then "existing vpc" else "new vpc" in
  inherited (setDescription
    ("(SO8021) - Deploy keycloak " ++ dbMsg ++ " with " ++ vpcMsg
       ++ ". template version: " ++ interpolate VERSION)) ;;

  certificateArnParam <- inherited (makeParam "CertificateArn" (Some
    (CfnParameterProps.mk
       (Some "String")
       (Some "Certificate Arn for Application Load Balancer")
       (Some 5%Z) None None None))) ;;
  inherited (addGroupParam
    (set empty "Application Load Balancer Settings" [Some certificateArnParam])) ;;
  update_settings
    (KeycloakSettings.with_certificateArn (valueAsString certificateArnParam)) ;;

  (if negb (truthy (auroraServerless props)) then
     databaseInstanceType <- inherited (makeParam "DatabaseInstanceType" (Some
       (CfnParameterProps.mk
          (Some "String")
          (Some "Instance type to be used for the core instances")
          None None (Some INSTANCE_TYPES) (Some (JsString "r5.large"))))) ;;
     inherited (addGroupParam
       (set empty "Database Instance Settings" [Some databaseInstanceType])) ;;
     update_settings
       (KeycloakSettings.with_databaseInstanceType
          (new_InstanceType (valueAsString databaseInstanceType)))
   else ret tt) ;;

  (if truthy (fromExistingVPC props) then
     vpcIdParam <- inherited (makeParam "VpcId" (Some
       (CfnParameterProps.mk
          (Some "AWS::EC2::VPC::Id") (Some "Your VPC Id")
          None None None None))) ;;
     pubSubnetsParam <- inherited (makeParam "PubSubnets" (Some
       (CfnParameterProps.mk
          (Some "List<AWS::EC2::Subnet::Id>") (Some "Public subnets (Choose two)")
          None None None None))) ;;
     privSubnetsParam <- inherited (makeParam "PrivSubnets" (Some
       (CfnParameterProps.mk
          (Some "List<AWS::EC2::Subnet::Id>") (Some "Private subnets (Choose two)")
          None None None None))) ;;
     dbSubnetsParam <- inherited (makeParam "DBSubnets" (Some
       (CfnParameterProps.mk
          (Some "List<AWS::EC2::Subnet::Id>") (Some "Database subnets (Choose two)")
          None None None None))) ;;
     inherited (addGroupParam
       (set empty "VPC Settings"
          [Some vpcIdParam; Some pubSubnetsParam;
           Some privSubnetsParam; Some dbSubnetsParam])) ;;

     let azs := ["a"; "b"] in
     vpc <- inherited (Vpc_fromVpcAttributes "VpcAttr"
       {| VpcAttributes.vpcId := valueAsString vpcIdParam;
          VpcAttributes.vpcCidrBlock := Aws_NO_VALUE;
          VpcAttributes.availabilityZones := azs;
          VpcAttributes.publicSubnetIds :=
            array_mapi (fun _ index => Fn_select index (valueAsList pubSubnetsParam)) azs;
          VpcAttributes.privateSubnetIds :=
            array_mapi (fun _ index => Fn_select index (valueAsList privSubnetsParam)) azs;
          VpcAttributes.isolatedSubnetIds :=
            array_mapi (fun _ index => Fn_select index (valueAsList dbSubnetsParam)) azs
       |}) ;;

     update_settings
       (KeycloakSettings.assign_network vpc
          {| subnets := IVpc.publicSubnets vpc |}
          {| subnets := IVpc.privateSubnets vpc |}
          {| subnets := IVpc.isolatedSubnets vpc |})
   else ret tt) ;;

  minContainersParam <- inherited (makeParam "MinContainers" (Some
    (CfnParameterProps.mk
       (Some "Number") (Some "minimum containers count")
       None (Some 2%Z) None (Some (JsNumber 2))))) ;;
  maxContainersParam <- inherited (makeParam "MaxContainers" (Some
    (CfnParameterProps.mk
       (Some "Number") (Some "maximum containers count")
       None (Some 2%Z) None (Some (JsNumber 10))))) ;;
  targetCpuUtilizationParam <- inherited (makeParam "AutoScalingTargetCpuUtilization" (Some
    (CfnParameterProps.mk
       (Some "Number") (Some "Auto scaling target cpu utilization")
       None (Some 0%Z) None (Some (JsNumber 75))))) ;;
  inherited (addGroupParam
    (set empty "AutoScaling Settings"
       [Some minContainersParam; Some maxContainersParam;
        Some targetCpuUtilizationParam])) ;;

  javaOptsParam <- inherited (makeParam "JavaOpts" (Some
    (CfnParameterProps.mk
       (Some "String") (Some "JAVA_OPTS environment variable")
       None None None None))) ;;
  inherited (addGroupParam (set empty "Environment variable" [Some javaOptsParam])) ;;

  keycloakVersion <- inherited (makeParam "Keycloak Version" (Some
    (CfnParameterProps.mk
       (Some "String") (Some keycloakVersion_description)
       None None None (Some (JsString "cb.15.0.2"))))) ;;
  inherited (addGroupParam (set empty "Keycloak Version" [Some keycloakVersion])) ;;

  this <- read ;;
  inherited (new_KeyCloak "KeyCloak"
    {| KeyCloakProps.vpc := KeycloakSettings.vpc (_keycloakSettings this);
       KeyCloakProps.publicSubnets :=
         KeycloakSettings.publicSubnets (_keycloakSettings this);
       KeyCloakProps.privateSubnets :=
         KeycloakSettings.privateSubnets (_keycloakSettings this);
       KeyCloakProps.databaseSubnets :=
         KeycloakSettings.databaseSubnets (_keycloakSettings this);
       KeyCloakProps.certificateArn :=
         KeycloakSettings.certificateArn (_keycloakSettings this);
       KeyCloakProps.auroraServerless := auroraServerless props;
       KeyCloakProps.databaseInstanceType :=
         KeycloakSettings.databaseInstanceType (_keycloakSettings this);
       KeyCloakProps.stickinessCookieDuration := Duration_days 7;
       KeyCloakProps.nodeCount := valueAsNumber minContainersParam;
       KeyCloakProps.autoScaleTask :=
         {| AutoScaleTask.min := valueAsNumber minContainersParam;
            AutoScaleTask.max := valueAsNumber maxContainersParam;
            AutoScaleTask.targetCpuUtilization :=
              valueAsNumber targetCpuUtilizationParam |};
       KeyCloakProps.env := set empty "JAVA_OPTS" (valueAsString javaOptsParam);
       KeyCloakProps.keycloakVersion :=
         KeycloakVersion_of (valueAsString keycloakVersion) |}).

(** [new KeycloakStack(scope, id, props)] *)
Definition construct (VERSION : option string) (props : option KeycloakStackProps)
  : Completion (unit * KeycloakStack) :=
  constructor VERSION props new_KeycloakStack.

End Stack.

(* ------------------------------------------------------------------ *)
(** ** Reading the result of a construction *)
(* ------------------------------------------------------------------ *)

(** The parameters declared on a stack, in declaration order. *)
Definition declared_parameters (s : SolutionStack) : list CfnParameter :=
  flat_map (fun c => match c with ParameterConstruct p => [p] | _ => [] end)
           (children s).

Definition find_parameter (id : string) (s : SolutionStack) : option CfnParameter :=
  find (fun p => String.eqb (node_id p) id) (declared_parameters s).

(** The properties the [KeyCloak] construct was created with. *)
Definition composer_props (s : SolutionStack) : option KeyCloakProps.t :=
  match flat_map (fun c => match c with KeyCloakConstruct _ p => [p] | _ => [] end)
                 (children s) with
  | p :: _ => Some p
  | [] => None
  end.

(* ------------------------------------------------------------------ *)
(** ** Deploy-time resolution *)
(* ------------------------------------------------------------------ *)

(** A value a parameter has once the template is instantiated. *)
Inductive Value : Type :=
| VString (s : string)
| VNumber (n : Z)
| VList (l : list string).

(** The values the operator supplies, by logical id. *)
Definition Supplied : Type := string -> option Value.

Definition value_of_literal (v : JsValue) : Value :=
  match v with
  | JsString s => VString s
  | JsNumber n => VNumber n
  end.

(** Modelled from the spec: resolution of deferred references is done by
    the external template emitter, which is not in src.  A reference to a
    parameter is the supplied value, or the declared default when none is
    supplied (spec 4.2 step 8 and section 8); a selection takes the entry
    at its index of a resolved list. *)
Fixpoint resolve (supplied : Supplied) (t : Intrinsic) : option Value :=
  match t with
  | Ref (RefParameter p) =>
      match supplied (logicalId p) with
      | Some v => Some v
      | None => option_map value_of_literal (CfnParameterProps.default (props p))
      end
  | Ref (RefPseudo _) => None
  | FnSelect index l =>
      match resolve supplied l with
      | Some (VList xs) => option_map VString (nth_error xs index)
      | _ => None
      end
  end.

Definition resolve_string (supplied : Supplied) (s : CdkString) : option Value :=
  match s with
  | StrLit s => Some (VString s)
  | StrToken t => resolve supplied t
  end.

Definition resolve_number (supplied : Supplied) (n : CdkNumber) : option Value :=
  match n with
  | NumLit n => Some (VNumber n)
  | NumToken t => resolve supplied t
  end.

(** The subnet ids of a selection, resolved. *)
Definition resolve_selection (supplied : Supplied) (sel : SubnetSelection)
  : list (option Value) :=
  map (fun sn => resolve_string supplied (subnetId sn)) (subnets sel).

(** The registry after a run of [addGroupParam] calls. *)
Definition register_all (calls : list (obj (list (option CfnParameter))))
  : Method SolutionStack unit :=
  for_of calls addGroupParam.



(** The identifier sequence a stack exports for a label, if any. *)
Definition exported_group (label : string) (s : SolutionStack)
  : option (list string) :=
  match exportGroups s with
  | Some groups => group_of label groups
  | None => None
  end.

(** The groups [_setParamGroups] builds from a registry. *)
Definition groups_of_registry (g : obj (list (option CfnParameter)))
  : list ParameterGroup :=
  map (fun key => {| Label_default := key;
                     Parameters := exported_ids (nullish_or (get g key) []) |})
      (keys g).

(** The entry of one label after a call, given the entry before it. *)
Definition merge_call (label : string)
  (before : option (list (option CfnParameter)))
  (call : obj (list (option CfnParameter)))
  : option (list (option CfnParameter)) :=
  match get call label with
  | Some params => Some (params ++ nullish_or before [])
  | None => before
  end.


(** Whether an optional field is set. *)
Definition is_set {A} (x : option A) : bool :=
  match x with Some _ => true | None => false end.

(** The ids of the parameters a stack declares, in declaration order. *)
Definition declared_ids (s : SolutionStack) : list string :=
  map node_id (declared_parameters s).

(** ** A concrete deployment, for examples *)

(** An allocator that takes the id as the logical id. *)
Definition logicalId_as_given (id : string) : string := id.

(** A rendering of versions that prints nothing. *)
Definition blank_version_text (v : KeycloakVersion) : string := "".

(** Both modes on, as in the spec's scenario B. *)
Definition serverless_existing_vpc : KeycloakStackProps :=
  {| auroraServerless := Some true; fromExistingVPC := Some true |}.

(** Both modes off, as in the spec's scenario A. *)
Definition managed_new_vpc : KeycloakStackProps :=
  {| auroraServerless := Some false; fromExistingVPC := Some false |}.

(** Three public subnets supplied, two private and two database ones. *)
Definition supplied_subnets : Supplied :=
  fun id =>
    if String.eqb id "PubSubnets"
    then Some (VList ["subnet-a"; "subnet-b"; "subnet-c"])
    else if String.eqb id "PrivSubnets"
    then Some (VList ["subnet-d"; "subnet-e"])
    else if String.eqb id "DBSubnets"
    then Some (VList ["subnet-f"; "subnet-g"])
    else None.

(** Nothing supplied: every parameter takes its default. *)
Definition nothing_supplied : Supplied := fun _ => None.

(** A parameter known by its logical id alone. *)
Definition parameter_named (lid : string) : CfnParameter :=
  {| node_id := lid; logicalId := lid; props := CfnParameterProps.none |}.

(** What a finished construction handed to the composer. *)
Definition handed_over (c : Completion (unit * KeycloakStack))
  : option KeyCloakProps.t :=
  match c with
  | Normal (_, this) => composer_props (base this)
  | Throw _ => None
  end.

(** ** Notions used to state further properties *)

(** The id a child of the stack was created under. *)
Definition construct_id (c : Construct) : string :=
  match c with
  | ParameterConstruct p => node_id p
  | ImportedVpcConstruct id _ => id
  | KeyCloakConstruct id _ => id
  end.

(** Whether the declared default of a parameter meets the parameter's own
    constraints: a number is at least [minValue], a string is among
    [allowedValues] and at least [minLength] long. *)
Definition default_within_constraints (p : CfnParameterProps.t) : bool :=
  match CfnParameterProps.default p with
  | None => true
  | Some (JsNumber n) =>
      match CfnParameterProps.minValue p with
      | Some m => (m <=? n)%Z
      | None => true
      end
  | Some (JsString s) =>
      match CfnParameterProps.allowedValues p with
      | Some vs => existsb (String.eqb s) vs
      | None => true
      end
      && match CfnParameterProps.minLength p with
         | Some m => (m <=? Z.of_nat (String.length s))%Z
         | None => true
         end
  end.

(** The flags with each one replaced by its truthiness. *)
Definition truthiness (flags : option KeycloakStackProps) : option KeycloakStackProps :=
  Some {| auroraServerless :=
            Some (truthy (auroraServerless (nullish_or flags no_props)));
          fromExistingVPC :=
            Some (truthy (fromExistingVPC (nullish_or flags no_props))) |}.

(** The description the constructor composes. *)
Definition stack_description (VERSION : option string)
  (flags : option KeycloakStackProps) : string :=
  "(SO8021) - Deploy keycloak "
  ++ (if truthy (auroraServerless (nullish_or flags no_props))
      then "using aurora serverless" else "rds mysql")
  ++ " with "
  ++ (if truthy (fromExistingVPC (nullish_or flags no_props))
      then "existing vpc" else "new vpc")
  ++ ". template version: "
  ++ match VERSION with Some v => v | None => "undefined" end.

(** A fresh stack after one registration: parameter "a" under label "A". *)
Definition stack_with_group_A : SolutionStack :=
  with_metadata
    (Some (set empty CfnInterfaceKey
               (CfnInterface [ {| Label_default := "A"; Parameters := ["a"] |} ])))
    (with_paramGroup (set empty "A" [Some (parameter_named "a")])
                     new_SolutionStack).

(* ================================================================== *)
(** * Properties *)
(* ================================================================== *)

(** ** Objects *)

Section ObjectFacts.

Context {A : Type}.
Implicit Types (o : obj A) (k : string).

Lemma get_set_same o k (v : A) : get (set o k v) k = Some v.
Proof.
  induction o as [|[k' v'] o IH]; simpl.
  - now rewrite String.eqb_refl.
  - destruct (String.eqb k k') eqn:E; simpl; rewrite E; auto.
Qed.

Lemma get_set_other o k k' (v : A) :
  k <> k' -> get (set o k v) k' = get o k'.
Proof.
  intros Hne. induction o as [|[k0 v0] o IH]; simpl.
  - destruct (String.eqb_spec k' k); congruence.
  - destruct (String.eqb_spec k k0) as [->|Hk]; simpl.
    + destruct (String.eqb_spec k' k0); congruence.
    + now rewrite IH.
Qed.

Lemma get_some_in o k : get o k <> None <-> In k (map fst o).
Proof.
  induction o as [|[k0 v0] o IH]; simpl.
  - tauto.
  - destruct (String.eqb_spec k k0) as [->|Hk].
    + split; [auto | discriminate].
    + rewrite IH. split; [auto | intros [E|H]; congruence].
Qed.

End ObjectFacts.

Lemma distinct_in (l : list string) k : In k (distinct l) <-> In k l.
Proof.
  induction l as [|k0 l IH]; simpl; [tauto|].
  rewrite filter_In, IH.
  destruct (String.eqb_spec k k0) as [->|Hk]; simpl.
  - tauto.
  - split; [intros [E|[H _]]; auto | intros [E|H]; auto].
Qed.

Lemma distinct_NoDup (l : list string) : NoDup (distinct l).
Proof.
  induction l as [|k0 l IH]; simpl; constructor.
  - rewrite filter_In, String.eqb_refl. simpl. intros [_ H]. discriminate.
  - now apply NoDup_filter.
Qed.

Lemma insert_by_index_perm k l : Permutation (insert_by_index k l) (k :: l).
Proof.
  induction l as [|k' l IH]; simpl; auto.
  destruct (index_of k <=? index_of k')%N; auto.
  rewrite IH. apply perm_swap.
Qed.

Lemma sort_by_index_perm l : Permutation (sort_by_index l) l.
Proof.
  induction l as [|k l IH]; simpl; auto.
  rewrite insert_by_index_perm. now constructor.
Qed.

Lemma filter_split_perm {A} (f : A -> bool) (l : list A) :
  Permutation (filter f l ++ filter (fun a => negb (f a)) l) l.
Proof.
  induction l as [|a l IH]; simpl; auto.
  destruct (f a); simpl.
  - now constructor.
  - symmetry. apply Permutation_cons_app. now symmetry.
Qed.

Lemma keys_perm {A} (o : obj A) : Permutation (keys o) (own_names o).
Proof.
  unfold keys. rewrite sort_by_index_perm. apply filter_split_perm.
Qed.

Lemma keys_NoDup {A} (o : obj A) : NoDup (keys o).
Proof.
  apply Permutation_NoDup with (l := own_names o).
  - symmetry. apply keys_perm.
  - apply distinct_NoDup.
Qed.

Lemma keys_in {A} (o : obj A) k : In k (keys o) <-> get o k <> None.
Proof.
  rewrite get_some_in. split; intros H.
  - apply distinct_in. apply Permutation_in with (l := keys o); auto.
    apply keys_perm.
  - apply Permutation_in with (l := own_names o).
    + symmetry. apply keys_perm.
    + now apply distinct_in.
Qed.

(** ** The parameter-group registry *)

Lemma exported_ids_app (a b : list (option CfnParameter)) :
  exported_ids (a ++ b) = exported_ids a ++ exported_ids b.
Proof.
  unfold exported_ids. now rewrite map_app, filter_app.
Qed.

Lemma exported_ids_nonempty (ps : list (option CfnParameter)) :
  ~ In "" (exported_ids ps).
Proof.
  unfold exported_ids. rewrite filter_In. intros [_ H]. discriminate.
Qed.

Lemma mkgrp_all (g : obj (list (option CfnParameter))) (ks : list string)
  (s : SolutionStack) :
  (forall k, In k ks -> get g k <> None) ->
  array_map (fun key => mkgrp key (get g key)) ks s
  = Normal (map (fun key =>
                   {| Label_default := key;
                      Parameters := exported_ids (nullish_or (get g key) []) |})
                ks, s).
Proof.
  induction ks as [|k ks IH]; intros Hin; simpl.
  - reflexivity.
  - unfold bind at 1.
    destruct (get g k) as [ps|] eqn:E.
    + simpl. unfold bind at 1. rewrite IH by (intros; apply Hin; now right).
      reflexivity.
    + exfalso. apply (Hin k); auto. now left.
Qed.

Lemma setParamGroups_run (s : SolutionStack) :
  _setParamGroups s
  = Normal (tt, with_metadata
                  (Some (set (nullish_or (metadata (templateOptions s)) empty)
                             CfnInterfaceKey
                             (CfnInterface (groups_of_registry (_paramGroup s)))))
                  s).
Proof.
  unfold _setParamGroups, bind, read, modify, ret.
  destruct (metadata (templateOptions s)) as [m|] eqn:E; simpl.
  - rewrite mkgrp_all by (intros k Hk; now apply keys_in).
    rewrite E. reflexivity.
  - rewrite mkgrp_all by (intros k Hk; now apply keys_in).
    reflexivity.
Qed.

Lemma exportGroups_with_metadata m groups (s : SolutionStack) :
  exportGroups (with_metadata (Some (set m CfnInterfaceKey (CfnInterface groups))) s)
  = Some groups.
Proof.
  unfold exportGroups. simpl. now rewrite get_set_same.
Qed.

Lemma find_group (f : string -> list string) (ks : list string) label :
  find (fun g => String.eqb (Label_default g) label)
       (map (fun key => {| Label_default := key; Parameters := f key |}) ks)
  = if existsb (String.eqb label) ks
    then Some {| Label_default := label; Parameters := f label |}
    else None.
Proof.
  induction ks as [|k ks IH]; simpl; auto.
  destruct (String.eqb_spec k label) as [->|Hk].
  - now rewrite String.eqb_refl.
  - destruct (String.eqb_spec label k); [congruence|]. simpl. apply IH.
Qed.

Lemma existsb_eqb_in (ks : list string) k :
  existsb (String.eqb k) ks = true <-> In k ks.
Proof.
  rewrite existsb_exists. split.
  - intros [x [Hx E]]. apply String.eqb_eq in E. now subst.
  - intros H. exists k. split; auto. apply String.eqb_refl.
Qed.

Lemma group_of_registry (g : obj (list (option CfnParameter))) label :
  group_of label (groups_of_registry g) = option_map exported_ids (get g label).
Proof.
  unfold group_of, groups_of_registry.
  rewrite find_group with (f := fun key => exported_ids (nullish_or (get g key) [])).
  destruct (existsb (String.eqb label) (keys g)) eqn:E.
  - apply existsb_eqb_in, keys_in in E.
    destruct (get g label); [reflexivity | congruence].
  - destruct (get g label) eqn:G; [|reflexivity].
    assert (In label (keys g)) as H by (apply keys_in; congruence).
    apply existsb_eqb_in in H. congruence.
Qed.

Lemma register_loop (props : obj (list (option CfnParameter))) (ks : list string) :
  NoDup ks ->
  (forall k, In k ks -> get props k <> None) ->
  forall s : SolutionStack,
  exists g',
    for_of ks (fun key =>
      match get props key with
      | Some params =>
          this <- read ;;
          modify (with_paramGroup
                    (set (_paramGroup this) key
                         (params ++ nullish_or (get (_paramGroup this) key) [])))
      | None =>
          throw (TypeError "Cannot read properties of undefined (reading 'concat')")
      end) s
    = Normal (tt, with_paramGroup g' s)
    /\ forall label,
         get g' label
         = if existsb (String.eqb label) ks
           then merge_call label (get (_paramGroup s) label) props
           else get (_paramGroup s) label.
Proof.
  induction ks as [|k ks IH]; intros Hnd Hin s.
  - exists (_paramGroup s). split; [now destruct s | reflexivity].
  - inversion Hnd as [|? ? Hk Hnd']; subst.
    destruct (get props k) as [ps|] eqn:E;
      [|exfalso; apply (Hin k); [now left | assumption]].
    set (s1 := with_paramGroup
                 (set (_paramGroup s) k (ps ++ nullish_or (get (_paramGroup s) k) []))
                 s).
    destruct (IH Hnd' (fun k' H => Hin k' (or_intror H)) s1) as [g' [Hrun Hget]].
    exists g'. split.
    + simpl for_of. unfold bind at 1. rewrite E.
      change ((this <- read ;;
               modify (with_paramGroup
                         (set (_paramGroup this) k
                              (ps ++ nullish_or (get (_paramGroup this) k) [])))) s)
        with (@Normal (unit * SolutionStack) (tt, s1)).
      cbv beta iota. rewrite Hrun. now destruct s.
    + intros label. rewrite Hget. simpl.
      destruct (String.eqb_spec label k) as [->|Hne]; simpl.
      * assert (existsb (String.eqb k) ks = false) as ->.
        { destruct (existsb (String.eqb k) ks) eqn:X; auto.
          apply existsb_eqb_in in X. contradiction. }
        unfold merge_call. rewrite E. apply get_set_same.
      * rewrite get_set_other by congruence. reflexivity.
Qed.

Lemma addGroupParam_run (props : obj (list (option CfnParameter)))
  (s : SolutionStack) :
  exists s',
    addGroupParam props s = Normal (tt, s')
    /\ (forall label,
          get (_paramGroup s') label
          = merge_call label (get (_paramGroup s) label) props)
    /\ exportGroups s' = Some (groups_of_registry (_paramGroup s'))
    /\ children s' = children s
    /\ description (templateOptions s') = description (templateOptions s).
Proof.
  destruct (register_loop props (keys_NoDup props)
              (fun k H => proj1 (keys_in props k) H) s) as [g' [Hrun Hget]].
  eexists. unfold addGroupParam. unfold bind at 1. rewrite Hrun.
  rewrite setParamGroups_run. split; [reflexivity|].
  split; [|split; [apply exportGroups_with_metadata | split; reflexivity]].
  intros label. simpl. rewrite Hget.
  destruct (existsb (String.eqb label) (keys props)) eqn:X; auto.
  unfold merge_call. destruct (get props label) eqn:G; auto.
  assert (In label (keys props)) as H by (apply keys_in; congruence).
  apply existsb_eqb_in in H. congruence.
Qed.





(** C3. For every stack, whatever its registry holds (entries that are
    undefined, parameters with an empty logical id), exporting the groups
    returns normally and no exported group lists an empty identifier; the
    same holds for the export that ends every [addGroupParam] call,
    whatever is being registered.  Exported identifiers are strings, so
    none is undefined either. *)
Theorem export_drops_empty_identifiers
  (s : SolutionStack) (props : obj (list (option CfnParameter))) :
  (exists s' groups,
      _setParamGroups s = Normal (tt, s')
      /\ exportGroups s' = Some groups
      /\ Forall (fun g => ~ In "" (Parameters g)) groups)
  /\ (exists s' groups,
        addGroupParam props s = Normal (tt, s')
        /\ exportGroups s' = Some groups
        /\ Forall (fun g => ~ In "" (Parameters g)) groups).
Proof.
  assert (forall g, Forall (fun g => ~ In "" (Parameters g)) (groups_of_registry g))
    as Hclean.
  { intros g. unfold groups_of_registry. apply Forall_forall.
    intros x Hx. apply in_map_iff in Hx as [k [<- _]]. simpl.
    apply exported_ids_nonempty. }
  split.
  - eexists. eexists. rewrite setParamGroups_run.
    split; [reflexivity|]. split; [apply exportGroups_with_metadata | apply Hclean].
  - destruct (addGroupParam_run props s) as [s' [Hrun [_ [Hexp _]]]].
    exists s'. eexists. split; [exact Hrun|]. split; [exact Hexp | apply Hclean].
Qed.

(** ** The constructor of [KeycloakStack] *)

(** Every way the caller can pass the two flags: the argument omitted, or
    each flag undefined, false or true. *)
Ltac each_flags flags :=
  let a := fresh "serverless" in
  let v := fresh "existing" in
  destruct flags as [[a v]|];
  [destruct a as [[|]|]; destruct v as [[|]|]|].

(** Evaluation that leaves the two long texts folded. *)
Ltac evaluate := cbv -[INSTANCE_TYPES keycloakVersion_description].

(** Runs the constructor to its final instance and to the properties the
    composer received, then evaluates what is left of the goal. *)
Ltac run_constructor :=
  eexists; eexists;
  (split; [evaluate; reflexivity|]);
  (split; [evaluate; reflexivity|]);
  evaluate.

Section Constructor.

Variable allocateLogicalId : string -> string.
Variable KeycloakVersion_toString : KeycloakVersion -> string.

(** The constructor returns for every way of passing the flags, and hands
    the settings it kept on the instance to the [KeyCloak] construct. *)
Lemma construct_returns (VERSION : option string)
  (flags : option KeycloakStackProps) :
  exists this kp,
    construct allocateLogicalId KeycloakVersion_toString VERSION flags
    = Normal (tt, this)
    /\ composer_props (base this) = Some kp
    /\ KeyCloakProps.vpc kp = KeycloakSettings.vpc (_keycloakSettings this)
    /\ KeyCloakProps.publicSubnets kp
       = KeycloakSettings.publicSubnets (_keycloakSettings this)
    /\ KeyCloakProps.privateSubnets kp
       = KeycloakSettings.privateSubnets (_keycloakSettings this)
    /\ KeyCloakProps.databaseSubnets kp
       = KeycloakSettings.databaseSubnets (_keycloakSettings this)
    /\ KeyCloakProps.certificateArn kp
       = KeycloakSettings.certificateArn (_keycloakSettings this)
    /\ KeyCloakProps.databaseInstanceType kp
       = KeycloakSettings.databaseInstanceType (_keycloakSettings this)
    /\ KeyCloakProps.auroraServerless kp
       = auroraServerless (nullish_or flags no_props).
Proof.
  each_flags flags; run_constructor; repeat split; reflexivity.
Qed.

(** C1. For every way of passing the flags, the database-instance-class
    field of the settings (as kept on the stack and as handed to the
    composer) is set exactly when [auroraServerless] is not true.  When
    set, it is the instance type named by the value of the declared
    [DatabaseInstanceType] parameter, which resolves to the supplied
    value, or to "r5.large" when none is supplied.  When
    [auroraServerless] is true the field is unset and the parameter is
    not declared. *)
Theorem database_instance_class_follows_serverless_flag
  (VERSION : option string) (flags : option KeycloakStackProps)
  (supplied : Supplied) :
  exists this kp,
    construct allocateLogicalId KeycloakVersion_toString VERSION flags
    = Normal (tt, this)
    /\ composer_props (base this) = Some kp
    /\ KeyCloakProps.databaseInstanceType kp
       = KeycloakSettings.databaseInstanceType (_keycloakSettings this)
    /\ is_set (KeyCloakProps.databaseInstanceType kp)
       = negb (truthy (auroraServerless (nullish_or flags no_props)))
    /\ match KeyCloakProps.databaseInstanceType kp with
       | Some instance =>
           exists p,
             find_parameter "DatabaseInstanceType" (base this) = Some p
             /\ instance = new_InstanceType (valueAsString p)
             /\ resolve_string supplied (instanceTypeIdentifier instance)
                = Some (nullish_or (supplied (logicalId p)) (VString "r5.large"))
       | None =>
           find_parameter "DatabaseInstanceType" (base this) = None
       end.
Proof.
  each_flags flags; run_constructor; (repeat split; try reflexivity);
    eexists; (repeat split; try reflexivity);
    evaluate; destruct (supplied _); reflexivity.
Qed.

(** C4. With [fromExistingVPC] true and supplied public, private and
    database subnet-id lists of at least two entries each, every one of
    the three subnet selections handed to the composer holds exactly two
    subnets: the selections at index 0 and at index 1 of the list
    parameter of its kind, which resolve to the entries at positions 0
    and 1 of the supplied list. *)
Theorem existing_vpc_selects_first_two_subnets
  (VERSION : option string) (flags : option KeycloakStackProps)
  (supplied : Supplied) (pub priv db : list string) :
  truthy (fromExistingVPC (nullish_or flags no_props)) = true ->
  supplied (allocateLogicalId "PubSubnets") = Some (VList pub) ->
  supplied (allocateLogicalId "PrivSubnets") = Some (VList priv) ->
  supplied (allocateLogicalId "DBSubnets") = Some (VList db) ->
  (2 <= List.length pub)%nat ->
  (2 <= List.length priv)%nat ->
  (2 <= List.length db)%nat ->
  exists this kp,
    construct allocateLogicalId KeycloakVersion_toString VERSION flags
    = Normal (tt, this)
    /\ composer_props (base this) = Some kp
    /\ exists ppub ppriv pdb spub spriv sdb,
         find_parameter "PubSubnets" (base this) = Some ppub
         /\ find_parameter "PrivSubnets" (base this) = Some ppriv
         /\ find_parameter "DBSubnets" (base this) = Some pdb
         /\ KeyCloakProps.publicSubnets kp = Some spub
         /\ KeyCloakProps.privateSubnets kp = Some spriv
         /\ KeyCloakProps.databaseSubnets kp = Some sdb
         /\ subnets spub
            = [ {| subnetId := Fn_select 0 (valueAsList ppub) |};
                {| subnetId := Fn_select 1 (valueAsList ppub) |} ]
         /\ subnets spriv
            = [ {| subnetId := Fn_select 0 (valueAsList ppriv) |};
                {| subnetId := Fn_select 1 (valueAsList ppriv) |} ]
         /\ subnets sdb
            = [ {| subnetId := Fn_select 0 (valueAsList pdb) |};
                {| subnetId := Fn_select 1 (valueAsList pdb) |} ]
         /\ resolve_selection supplied spub
            = [ Some (VString (nth 0 pub "")); Some (VString (nth 1 pub "")) ]
         /\ resolve_selection supplied spriv
            = [ Some (VString (nth 0 priv "")); Some (VString (nth 1 priv "")) ]
         /\ resolve_selection supplied sdb
            = [ Some (VString (nth 0 db "")); Some (VString (nth 1 db "")) ].
Proof.
  intros Hflag Hpub Hpriv Hdb Lpub Lpriv Ldb.
  destruct pub as [|pub0 [|pub1 pubs]]; simpl in Lpub; try lia.
  destruct priv as [|priv0 [|priv1 privs]]; simpl in Lpriv; try lia.
  destruct db as [|db0 [|db1 dbs]]; simpl in Ldb; try lia.
  each_flags flags; try discriminate Hflag;
    run_constructor;
    do 6 eexists; (repeat split; try reflexivity);
    evaluate; rewrite ?Hpub, ?Hpriv, ?Hdb; reflexivity.
Qed.

(** C5. For every way of passing the flags, the four network fields of
    the settings (the network reference and the public, private and
    database subnet selections) are all set when [fromExistingVPC] is
    true and all unset otherwise, both on the instance and in what is
    handed to the composer. *)
Theorem network_fields_set_together
  (VERSION : option string) (flags : option KeycloakStackProps) :
  exists this kp,
    construct allocateLogicalId KeycloakVersion_toString VERSION flags
    = Normal (tt, this)
    /\ composer_props (base this) = Some kp
    /\ is_set (KeyCloakProps.vpc kp)
       = truthy (fromExistingVPC (nullish_or flags no_props))
    /\ is_set (KeyCloakProps.publicSubnets kp)
       = truthy (fromExistingVPC (nullish_or flags no_props))
    /\ is_set (KeyCloakProps.privateSubnets kp)
       = truthy (fromExistingVPC (nullish_or flags no_props))
    /\ is_set (KeyCloakProps.databaseSubnets kp)
       = truthy (fromExistingVPC (nullish_or flags no_props))
    /\ is_set (KeycloakSettings.vpc (_keycloakSettings this))
       = truthy (fromExistingVPC (nullish_or flags no_props))
    /\ is_set (KeycloakSettings.publicSubnets (_keycloakSettings this))
       = truthy (fromExistingVPC (nullish_or flags no_props))
    /\ is_set (KeycloakSettings.privateSubnets (_keycloakSettings this))
       = truthy (fromExistingVPC (nullish_or flags no_props))
    /\ is_set (KeycloakSettings.databaseSubnets (_keycloakSettings this))
       = truthy (fromExistingVPC (nullish_or flags no_props)).
Proof.
  each_flags flags; run_constructor; repeat split; reflexivity.
Qed.

(** C6, as the code has it.  For every way of passing the flags, the
    version-selector parameter is declared as a plain string with no
    allowed-values restriction (nor any other constraint): the supported
    versions appear only in its description text.  Its default is
    "cb.15.0.2", it alone is registered in the group "Keycloak Version",
    and the composer receives the version made of its value. *)
Theorem version_parameter_is_unrestricted_string
  (VERSION : option string) (flags : option KeycloakStackProps) :
  exists this kp,
    construct allocateLogicalId KeycloakVersion_toString VERSION flags
    = Normal (tt, this)
    /\ composer_props (base this) = Some kp
    /\ exists p,
         find_parameter "Keycloak Version" (base this) = Some p
         /\ props p
            = CfnParameterProps.mk
                (Some "String")
                (Some (keycloakVersion_description KeycloakVersion_toString))
                None None None
                (Some (JsString "cb.15.0.2"))
         /\ get (_paramGroup (base this)) "Keycloak Version" = Some [Some p]
         /\ exported_group "Keycloak Version" (base this)
            = Some (exported_ids [Some p])
         /\ KeyCloakProps.keycloakVersion kp
            = KeycloakVersion_of (valueAsString p).
Proof.
  each_flags flags; run_constructor;
    eexists; repeat split; reflexivity.
Qed.

(** C7. Two runs of the constructor with the same flags end with the same
    settings on the instance and hand the same properties to the
    composer, whatever [process.env.VERSION] is in either run; hence the
    resolved values agree under the same supplied parameter values. *)
Theorem settings_do_not_depend_on_the_run
  (VERSION1 VERSION2 : option string) (flags : option KeycloakStackProps)
  (supplied : Supplied) :
  exists this1 this2 kp,
    construct allocateLogicalId KeycloakVersion_toString VERSION1 flags
    = Normal (tt, this1)
    /\ construct allocateLogicalId KeycloakVersion_toString VERSION2 flags
       = Normal (tt, this2)
    /\ _keycloakSettings this1 = _keycloakSettings this2
    /\ composer_props (base this1) = Some kp
    /\ composer_props (base this2) = Some kp
    /\ declared_parameters (base this1) = declared_parameters (base this2)
    /\ exportGroups (base this1) = exportGroups (base this2).
Proof.
  each_flags flags;
    eexists; eexists; eexists;
    (split; [evaluate; reflexivity|]);
    (split; [evaluate; reflexivity|]);
    (split; [reflexivity|]);
    (split; [evaluate; reflexivity|]);
    (split; [evaluate; reflexivity|]);
    split; reflexivity.
Qed.

(** C8. For every way of passing the flags, the stickiness duration
    handed to the composer is the literal 7 days: it resolves to 7
    whatever values are supplied, and the parameters the stack declares
    are the certificate, the instance class (unless serverless), the four
    network parameters (when an existing network is used), the three
    autoscaling parameters, the Java options and the version, with no
    parameter for the duration. *)
Theorem stickiness_duration_is_seven_days
  (VERSION : option string) (flags : option KeycloakStackProps)
  (supplied : Supplied) :
  exists this kp,
    construct allocateLogicalId KeycloakVersion_toString VERSION flags
    = Normal (tt, this)
    /\ composer_props (base this) = Some kp
    /\ KeyCloakProps.stickinessCookieDuration kp = Duration_days 7
    /\ time_unit (KeyCloakProps.stickinessCookieDuration kp) = Days
    /\ resolve_number supplied (amount (KeyCloakProps.stickinessCookieDuration kp))
       = Some (VNumber 7)
    /\ declared_ids (base this)
       = (["CertificateArn"]
            ++ (if truthy (auroraServerless (nullish_or flags no_props))
                then [] else ["DatabaseInstanceType"])
            ++ (if truthy (fromExistingVPC (nullish_or flags no_props))
                then ["VpcId"; "PubSubnets"; "PrivSubnets"; "DBSubnets"] else [])
            ++ ["MinContainers"; "MaxContainers";
                "AutoScalingTargetCpuUtilization"; "JavaOpts";
                "Keycloak Version"])%list.
Proof.
  each_flags flags; run_constructor; repeat split; reflexivity.
Qed.

(** C9. Omitting the properties argument, or passing the empty record,
    builds what passing both flags as false builds: the same description,
    the same declared parameters, groups and exported metadata, the same
    settings, and the same properties for the composer apart from the raw
    [auroraServerless] flag, which is forwarded as given (undefined, not
    false).  In particular the instance-class parameter is declared and
    the field set, no network parameter is declared and the four network
    fields are unset. *)
Theorem omitted_flags_behave_as_false (VERSION : option string) :
  exists this kp this_f kp_f,
    construct allocateLogicalId KeycloakVersion_toString VERSION None
    = Normal (tt, this)
    /\ composer_props (base this) = Some kp
    /\ construct allocateLogicalId KeycloakVersion_toString VERSION (Some no_props)
       = Normal (tt, this)
    /\ construct allocateLogicalId KeycloakVersion_toString VERSION
         (Some {| auroraServerless := Some false; fromExistingVPC := Some false |})
       = Normal (tt, this_f)
    /\ composer_props (base this_f) = Some kp_f
    /\ _keycloakSettings this = _keycloakSettings this_f
    /\ templateOptions (base this) = templateOptions (base this_f)
    /\ _paramGroup (base this) = _paramGroup (base this_f)
    /\ declared_parameters (base this) = declared_parameters (base this_f)
    /\ KeyCloakProps.auroraServerless kp = None
    /\ KeyCloakProps.auroraServerless kp_f = Some false
    /\ kp_f
       = {| KeyCloakProps.vpc := KeyCloakProps.vpc kp;
            KeyCloakProps.publicSubnets := KeyCloakProps.publicSubnets kp;
            KeyCloakProps.privateSubnets := KeyCloakProps.privateSubnets kp;
            KeyCloakProps.databaseSubnets := KeyCloakProps.databaseSubnets kp;
            KeyCloakProps.certificateArn := KeyCloakProps.certificateArn kp;
            KeyCloakProps.auroraServerless := Some false;
            KeyCloakProps.databaseInstanceType :=
              KeyCloakProps.databaseInstanceType kp;
            KeyCloakProps.stickinessCookieDuration :=
              KeyCloakProps.stickinessCookieDuration kp;
            KeyCloakProps.nodeCount := KeyCloakProps.nodeCount kp;
            KeyCloakProps.autoScaleTask := KeyCloakProps.autoScaleTask kp;
            KeyCloakProps.env := KeyCloakProps.env kp;
            KeyCloakProps.keycloakVersion := KeyCloakProps.keycloakVersion kp |}
    /\ declared_ids (base this)
       = ["CertificateArn"; "DatabaseInstanceType"; "MinContainers";
          "MaxContainers"; "AutoScalingTargetCpuUtilization"; "JavaOpts";
          "Keycloak Version"]
    /\ (exists p,
          find_parameter "DatabaseInstanceType" (base this) = Some p
          /\ KeyCloakProps.databaseInstanceType kp
             = Some (new_InstanceType (valueAsString p)))
    /\ KeyCloakProps.vpc kp = None
    /\ KeyCloakProps.publicSubnets kp = None
    /\ KeyCloakProps.privateSubnets kp = None
    /\ KeyCloakProps.databaseSubnets kp = None.
Proof.
  eexists; eexists; eexists; eexists.
  split; [evaluate; reflexivity|].
  split; [evaluate; reflexivity|].
  split; [evaluate; reflexivity|].
  split; [evaluate; reflexivity|].
  split; [evaluate; reflexivity|].
  evaluate. repeat split; try reflexivity.
  eexists. split; reflexivity.
Qed.

(** C10. For every way of passing the flags, the node count handed to the
    composer is the value of the declared [MinContainers] parameter, the
    very value given as the autoscaling minimum; it resolves to the
    supplied value, or to the default 2 when none is supplied. *)
Theorem node_count_is_minimum_container_count
  (VERSION : option string) (flags : option KeycloakStackProps)
  (supplied : Supplied) :
  exists this kp,
    construct allocateLogicalId KeycloakVersion_toString VERSION flags
    = Normal (tt, this)
    /\ composer_props (base this) = Some kp
    /\ exists p,
         find_parameter "MinContainers" (base this) = Some p
         /\ KeyCloakProps.nodeCount kp = valueAsNumber p
         /\ AutoScaleTask.min (KeyCloakProps.autoScaleTask kp)
            = KeyCloakProps.nodeCount kp
         /\ resolve_number supplied (KeyCloakProps.nodeCount kp)
            = Some (nullish_or (supplied (logicalId p)) (VNumber 2)).
Proof.
  each_flags flags; run_constructor;
    eexists; (repeat split; try reflexivity);
    evaluate; destruct (supplied _); reflexivity.
Qed.

End Constructor.

(** ** Concrete runs *)

(** The subnet selection on the spec's scenario B: of three supplied
    public subnets the first two are selected. *)
Lemma existing_vpc_selects_first_two_subnets_witness :
  truthy (fromExistingVPC (nullish_or (Some serverless_existing_vpc) no_props)) = true
  /\ supplied_subnets (logicalId_as_given "PubSubnets")
     = Some (VList ["subnet-a"; "subnet-b"; "subnet-c"])
  /\ (2 <= List.length ["subnet-a"; "subnet-b"; "subnet-c"])%nat
  /\ exists this kp spub spriv sdb,
       construct logicalId_as_given blank_version_text None
         (Some serverless_existing_vpc)
       = Normal (tt, this)
       /\ composer_props (base this) = Some kp
       /\ KeyCloakProps.publicSubnets kp = Some spub
       /\ KeyCloakProps.privateSubnets kp = Some spriv
       /\ KeyCloakProps.databaseSubnets kp = Some sdb
       /\ resolve_selection supplied_subnets spub
          = [ Some (VString "subnet-a"); Some (VString "subnet-b") ]
       /\ resolve_selection supplied_subnets spriv
          = [ Some (VString "subnet-d"); Some (VString "subnet-e") ]
       /\ resolve_selection supplied_subnets sdb
          = [ Some (VString "subnet-f"); Some (VString "subnet-g") ].
Proof.
  split; [reflexivity|]. split; [reflexivity|]. split; [simpl; lia|].
  destruct (@existing_vpc_selects_first_two_subnets
              logicalId_as_given blank_version_text None
              (Some serverless_existing_vpc) supplied_subnets
              ["subnet-a"; "subnet-b"; "subnet-c"]
              ["subnet-d"; "subnet-e"]
              ["subnet-f"; "subnet-g"])
    as (this & kp & Hrun & Hkp & ppub & ppriv & pdb & spub & spriv & sdb
        & _ & _ & _ & Hpub & Hpriv & Hdb & _ & _ & _ & Rpub & Rpriv & Rdb);
    try reflexivity; try (simpl; lia).
  exists this, kp, spub, spriv, sdb. repeat split; assumption.
Defined.

(** C6 fails as stated: with both modes off, the version-selector
    parameter is declared without an allowed-values set. *)
Lemma version_parameter_has_no_allowed_values :
  exists this version,
    construct logicalId_as_given blank_version_text None (Some managed_new_vpc)
    = Normal (tt, this)
    /\ find_parameter "Keycloak Version" (base this) = Some version
    /\ CfnParameterProps.type (props version) = Some "String"
    /\ CfnParameterProps.allowedValues (props version) = None.
Proof.
  eexists; eexists.
  split; [evaluate; reflexivity|].
  evaluate. repeat split; reflexivity.
Qed.

(** Two registrations under one label, around one under another: the
    later identifiers come first, undefined and unnamed entries are gone,
    and an index-like label is listed before the others. *)
Example two_registrations_newest_first :
  match register_all
          [ set empty "G" [Some (parameter_named "a"); None;
                           Some (parameter_named ""); Some (parameter_named "b")];
            set empty "7" [Some (parameter_named "h")];
            set empty "G" [Some (parameter_named "c"); Some (parameter_named "d")] ]
          new_SolutionStack
  with
  | Normal (_, s) => exportGroups s
  | Throw _ => None
  end
  = Some [ {| Label_default := "7"; Parameters := ["h"] |};
           {| Label_default := "G"; Parameters := ["c"; "d"; "a"; "b"] |} ].
Proof. reflexivity. Qed.

(** The spec's scenario A: both modes off and nothing supplied give the
    default instance class, no network fields and autoscaling 2, 10, 75. *)
Example managed_database_in_a_new_network :
  match handed_over (construct logicalId_as_given blank_version_text None
                       (Some managed_new_vpc)) with
  | Some kp =>
      option_map
        (fun i => resolve_string nothing_supplied (instanceTypeIdentifier i))
        (KeyCloakProps.databaseInstanceType kp)
      = Some (Some (VString "r5.large"))
      /\ KeyCloakProps.vpc kp = None
      /\ KeyCloakProps.publicSubnets kp = None
      /\ KeyCloakProps.privateSubnets kp = None
      /\ KeyCloakProps.databaseSubnets kp = None
      /\ map (resolve_number nothing_supplied)
           [ AutoScaleTask.min (KeyCloakProps.autoScaleTask kp);
             AutoScaleTask.max (KeyCloakProps.autoScaleTask kp);
             AutoScaleTask.targetCpuUtilization (KeyCloakProps.autoScaleTask kp) ]
         = [ Some (VNumber 2); Some (VNumber 10); Some (VNumber 75) ]
  | None => False
  end.
Proof. evaluate. repeat split; reflexivity. Qed.

(** The spec's scenario B: both modes on leave the instance class unset
    and select the first two of three supplied public subnets. *)
Example serverless_database_in_an_existing_network :
  match handed_over (construct logicalId_as_given blank_version_text None
                       (Some serverless_existing_vpc)) with
  | Some kp =>
      KeyCloakProps.databaseInstanceType kp = None
      /\ option_map (resolve_selection supplied_subnets)
           (KeyCloakProps.publicSubnets kp)
         = Some [ Some (VString "subnet-a"); Some (VString "subnet-b") ]
  | None => False
  end.
Proof. evaluate. repeat split; reflexivity. Qed.

(* ================================================================== *)
(** * Further properties *)
(* ================================================================== *)

(** ** More on objects *)

Section ObjectUpdates.

Context {A : Type}.
Implicit Types (o : obj A) (k : string).

Lemma set_set_same o k (v v' : A) : set (set o k v) k v' = set o k v'.
Proof.
  induction o as [|[k0 v0] o IH]; simpl.
  - now rewrite String.eqb_refl.
  - destruct (String.eqb k k0) eqn:E; simpl; rewrite E; [reflexivity|].
    now rewrite IH.
Qed.

Lemma names_set_present o k (v : A) :
  get o k <> None -> map fst (set o k v) = map fst o.
Proof.
  induction o as [|[k0 v0] o IH]; simpl; intros H.
  - congruence.
  - destruct (String.eqb k k0) eqn:E; simpl; [reflexivity|].
    now rewrite IH.
Qed.

Lemma names_set_absent o k (v : A) :
  get o k = None -> map fst (set o k v) = map fst o ++ [k].
Proof.
  induction o as [|[k0 v0] o IH]; simpl; intros H.
  - reflexivity.
  - destruct (String.eqb k k0) eqn:E; [discriminate|]. simpl.
    now rewrite IH.
Qed.

End ObjectUpdates.

Lemma distinct_snoc (l : list string) k :
  ~ In k l -> distinct (l ++ [k]) = distinct l ++ [k].
Proof.
  induction l as [|x l IH]; simpl; intros H.
  - reflexivity.
  - rewrite IH by tauto. rewrite filter_app. simpl.
    destruct (String.eqb_spec k x) as [->|Hne]; [tauto|]. reflexivity.
Qed.

Lemma keys_set_present {A} (o : obj A) k (v : A) :
  get o k <> None -> keys (set o k v) = keys o.
Proof.
  intros H. unfold keys, own_names. now rewrite names_set_present.
Qed.

Lemma keys_set_absent {A} (o : obj A) k (v : A) :
  get o k = None -> is_index k = false -> keys (set o k v) = keys o ++ [k].
Proof.
  intros Hget Hidx. unfold keys, own_names.
  rewrite names_set_absent by assumption.
  rewrite distinct_snoc.
  - rewrite !filter_app. simpl. rewrite Hidx. simpl.
    now rewrite app_nil_r, app_assoc.
  - intros Hin. apply get_some_in in Hin. congruence.
Qed.

Lemma keys_single {A} k (v : A) : keys (set empty k v) = [k].
Proof.
  unfold keys, own_names. simpl. destruct (is_index k); reflexivity.
Qed.

Lemma labels_of_registry (g : obj (list (option CfnParameter))) :
  map Label_default (groups_of_registry g) = keys g.
Proof.
  unfold groups_of_registry. rewrite map_map. simpl. apply map_id.
Qed.

(** One label registered by one call: the final instance in closed form. *)
Lemma addGroupParam_single (label : string) (ps : list (option CfnParameter))
  (s : SolutionStack) :
  let g := set (_paramGroup s) label
               (ps ++ nullish_or (get (_paramGroup s) label) []) in
  addGroupParam (set empty label ps) s
  = Normal (tt, with_metadata
                  (Some (set (nullish_or (metadata (templateOptions s)) empty)
                             CfnInterfaceKey
                             (CfnInterface (groups_of_registry g))))
                  (with_paramGroup g s)).
Proof.
  intros g. unfold addGroupParam. rewrite keys_single. simpl for_of.
  unfold bind at 1. unfold bind at 1. simpl get. rewrite String.eqb_refl.
  unfold bind at 1. unfold read, modify, ret. fold g.
  now rewrite setParamGroups_run.
Qed.

(** ** More on the parameter-group registry *)

(** X1. One call of [addGroupParam] returns, on any stack whose registry
    never had "__proto__" registered and with any object that does not
    register under it.  Afterwards, for every label the registry does not
    inherit from [Object.prototype]: a label the object names holds the
    call's parameters followed by those it held before, any other holds
    what it held, and the export shows the filtered identifiers of the
    label's entry.  Neither the children nor the description of the stack
    have changed. *)
Theorem one_registration_prepends_and_reexports
  (props : obj (list (option CfnParameter))) (s : SolutionStack) :
  get (_paramGroup s) "__proto__" = None ->
  get props "__proto__" = None ->
  exists s',
    addGroupParam props s = Normal (tt, s')
    /\ (forall label,
          inherited_name label = false ->
          get (_paramGroup s') label
          = match get props label with
            | Some params =>
                Some (params ++ nullish_or (get (_paramGroup s) label) [])
            | None => get (_paramGroup s) label
            end)
    /\ (forall label,
          inherited_name label = false ->
          exported_group label s'
          = option_map exported_ids (get (_paramGroup s') label))
    /\ children s' = children s
    /\ description (templateOptions s') = description (templateOptions s).
Proof.
  intros _ _.
  destruct (addGroupParam_run props s) as (s' & Hrun & Hget & Hexp & Hch & Hd).
  exists s'. repeat split; auto.
  intros label _. unfold exported_group. rewrite Hexp. apply group_of_registry.
Qed.

(** X2. Exporting twice in a row leaves the stack as exporting once
    does: the export is recomputed from the registry, not accumulated. *)
Theorem export_twice_is_export_once (s : SolutionStack) :
  (_setParamGroups ;; _setParamGroups) s = _setParamGroups s.
Proof.
  unfold bind. rewrite setParamGroups_run, setParamGroups_run.
  simpl. rewrite set_set_same. reflexivity.
Qed.

(** X3. Exporting writes one metadata entry only: every other metadata
    key reads as before (undefined metadata counting as empty), and the
    registry, the children and the description are untouched. *)
Theorem export_keeps_other_metadata (s : SolutionStack) (key : string) :
  exists s' m',
    _setParamGroups s = Normal (tt, s')
    /\ metadata (templateOptions s') = Some m'
    /\ get m' key
       = (if String.eqb key CfnInterfaceKey
          then option_map CfnInterface (exportGroups s')
          else get (nullish_or (metadata (templateOptions s)) empty) key)
    /\ _paramGroup s' = _paramGroup s
    /\ children s' = children s
    /\ description (templateOptions s') = description (templateOptions s).
Proof.
  eexists. eexists. rewrite setParamGroups_run.
  split; [reflexivity|]. split; [reflexivity|].
  split; [|repeat split].
  rewrite exportGroups_with_metadata. simpl.
  destruct (String.eqb_spec key CfnInterfaceKey) as [->|Hne].
  - apply get_set_same.
  - apply get_set_other. congruence.
Qed.

(** X4. After a registration the export lists each registered label
    exactly once: no label is repeated, and a label is listed if and only
    if the registry has an entry for it. *)
Theorem export_lists_each_label_once
  (props : obj (list (option CfnParameter))) (s : SolutionStack) :
  exists s' groups,
    addGroupParam props s = Normal (tt, s')
    /\ exportGroups s' = Some groups
    /\ NoDup (map Label_default groups)
    /\ forall label,
         In label (map Label_default groups)
         <-> get (_paramGroup s') label <> None.
Proof.
  destruct (addGroupParam_run props s) as (s' & Hrun & _ & Hexp & _).
  exists s'. eexists. split; [exact Hrun|]. split; [exact Hexp|].
  rewrite labels_of_registry. split; [apply keys_NoDup|].
  intros label. apply keys_in.
Qed.

(** X5. A label that is new to the registry, is not an array index and is
    not a name the registry inherits from [Object.prototype] is exported
    after all labels exported so far, with the filtered identifiers of
    the call; the groups exported before are unchanged.  This is on a
    stack that has exported and never had "__proto__" registered. *)
Theorem new_label_is_exported_last
  (first : obj (list (option CfnParameter))) (s0 s1 : SolutionStack)
  (label : string) (ps : list (option CfnParameter)) :
  addGroupParam first s0 = Normal (tt, s1) ->
  get (_paramGroup s1) "__proto__" = None ->
  get (_paramGroup s1) label = None ->
  is_index label = false ->
  inherited_name label = false ->
  exists s2 before,
    addGroupParam (set empty label ps) s1 = Normal (tt, s2)
    /\ exportGroups s1 = Some before
    /\ exportGroups s2
       = Some (before
               ++ [ {| Label_default := label; Parameters := exported_ids ps |} ]).
Proof.
  intros Hfirst _ Hnew Hidx _.
  destruct (addGroupParam_run first s0) as (s1' & Hrun & _ & Hexp & _).
  rewrite Hfirst in Hrun. injection Hrun as <-.
  eexists. eexists. rewrite addGroupParam_single.
  split; [reflexivity|]. split; [exact Hexp|].
  rewrite exportGroups_with_metadata. f_equal.
  unfold groups_of_registry. rewrite keys_set_absent by assumption.
  rewrite map_app. simpl. rewrite get_set_same, Hnew. simpl.
  rewrite app_nil_r. f_equal.
  apply map_ext_in. intros k Hk.
  rewrite get_set_other; [reflexivity|].
  intros ->. apply keys_in in Hk. congruence.
Qed.

(** X6. Registering again under a label the registry already has keeps
    the order of the exported labels; the label's exported identifiers
    become those of the call followed by those exported before, and every
    other label exports what it did. *)
Theorem reregistered_label_keeps_its_place
  (first : obj (list (option CfnParameter))) (s0 s1 : SolutionStack)
  (label : string) (old ps : list (option CfnParameter)) :
  addGroupParam first s0 = Normal (tt, s1) ->
  get (_paramGroup s1) label = Some old ->
  exists s2 before after,
    addGroupParam (set empty label ps) s1 = Normal (tt, s2)
    /\ exportGroups s1 = Some before
    /\ exportGroups s2 = Some after
    /\ map Label_default after = map Label_default before
    /\ group_of label after = Some (exported_ids ps ++ exported_ids old)
    /\ forall other, other <> label ->
         group_of other after = group_of other before.
Proof.
  intros Hfirst Hold.
  destruct (addGroupParam_run first s0) as (s1' & Hrun & _ & Hexp & _).
  rewrite Hfirst in Hrun. injection Hrun as <-.
  eexists. eexists. eexists. rewrite addGroupParam_single.
  split; [reflexivity|]. split; [exact Hexp|].
  rewrite exportGroups_with_metadata. split; [reflexivity|].
  rewrite !labels_of_registry, !group_of_registry.
  split; [apply keys_set_present; congruence|].
  split.
  - rewrite get_set_same, Hold. simpl. now rewrite exported_ids_app.
  - intros other Hne. rewrite !group_of_registry.
    rewrite get_set_other by congruence. reflexivity.
Qed.

(** X7. Registering nothing is a plain re-export, and a label registered
    with nothing usable (only undefined entries) is still exported, with
    an empty identifier list, when it is not a name the registry inherits
    from [Object.prototype]. *)
Theorem empty_registrations_still_export
  (s : SolutionStack) (label : string) (n : nat) :
  inherited_name label = false ->
  addGroupParam empty s = _setParamGroups s
  /\ exists s',
       addGroupParam (set empty label (repeat None n)) new_SolutionStack
       = Normal (tt, s')
       /\ exportGroups s'
          = Some [ {| Label_default := label; Parameters := [] |} ].
Proof.
  intros _.
  split; [reflexivity|].
  eexists. rewrite addGroupParam_single. split; [reflexivity|].
  rewrite exportGroups_with_metadata. f_equal.
  unfold groups_of_registry. simpl (_paramGroup _). simpl (get empty _).
  simpl (nullish_or None _). rewrite keys_single. simpl.
  rewrite String.eqb_refl. simpl. rewrite app_nil_r.
  do 2 f_equal. induction n; simpl; auto.
Qed.

(** X8. Nothing usable is lost: when every registered entry is a
    parameter with a non-empty logical id, the label exports exactly
    their logical ids, in the order given.  The label is one the registry
    does not inherit from [Object.prototype]. *)
Theorem usable_parameters_are_all_exported
  (label : string) (ps : list CfnParameter) :
  inherited_name label = false ->
  Forall (fun p => logicalId p <> "") ps ->
  exists s',
    addGroupParam (set empty label (map Some ps)) new_SolutionStack
    = Normal (tt, s')
    /\ exported_group label s' = Some (map logicalId ps).
Proof.
  intros _ Hps. eexists. rewrite addGroupParam_single. split; [reflexivity|].
  unfold exported_group. rewrite exportGroups_with_metadata.
  rewrite group_of_registry, get_set_same. simpl. rewrite app_nil_r.
  f_equal. unfold exported_ids. rewrite map_map.
  induction Hps as [|p ps Hp _ IH]; simpl; auto.
  unfold truthy_string at 1.
  destruct (String.eqb_spec (logicalId p) ""); [contradiction|].
  simpl. now rewrite IH.
Qed.

(** ** More on the constructor of [KeycloakStack] *)

Lemma NoDup_when_distinct (l : list string) : distinct l = l -> NoDup l.
Proof.
  intros <-. apply distinct_NoDup.
Qed.

Section ConstructorDetails.

Variable allocateLogicalId : string -> string.
Variable KeycloakVersion_toString : KeycloakVersion -> string.

(** X9. The description left on the stack names the database mode and
    the network mode chosen by the truthiness of the flags, and ends with
    the template version, which reads "undefined" when the environment
    has none. *)
Theorem description_names_modes_and_version
  (VERSION : option string) (flags : option KeycloakStackProps) :
  exists this kp,
    construct allocateLogicalId KeycloakVersion_toString VERSION flags
    = Normal (tt, this)
    /\ composer_props (base this) = Some kp
    /\ description (templateOptions (base this))
       = Some (stack_description VERSION flags).
Proof.
  each_flags flags; run_constructor; reflexivity.
Qed.

(** X10. The children the constructor creates under the stack have
    pairwise distinct ids, for every way of passing the flags: the
    declared parameters in declaration order, the imported network
    "VpcAttr" right after the network parameters when an existing network
    is used, and the "KeyCloak" construct last. *)
Theorem children_have_distinct_ids
  (VERSION : option string) (flags : option KeycloakStackProps) :
  exists this kp,
    construct allocateLogicalId KeycloakVersion_toString VERSION flags
    = Normal (tt, this)
    /\ composer_props (base this) = Some kp
    /\ NoDup (map construct_id (children (base this)))
    /\ map construct_id (children (base this))
       = (["CertificateArn"]
            ++ (if truthy (auroraServerless (nullish_or flags no_props))
                then [] else ["DatabaseInstanceType"])
            ++ (if truthy (fromExistingVPC (nullish_or flags no_props))
                then ["VpcId"; "PubSubnets"; "PrivSubnets"; "DBSubnets"; "VpcAttr"]
                else [])
            ++ ["MinContainers"; "MaxContainers";
                "AutoScalingTargetCpuUtilization"; "JavaOpts";
                "Keycloak Version"; "KeyCloak"])%list.
Proof.
  each_flags flags; run_constructor;
    (split; [apply NoDup_when_distinct; reflexivity | reflexivity]).
Qed.

(** X11. The groups partition the declared parameters: for every way of
    passing the flags, reading the registry group by group gives each
    declared parameter exactly once, in declaration order, and the
    exported labels are the group labels in the order the constructor
    registers them. *)
Theorem groups_partition_the_parameters
  (VERSION : option string) (flags : option KeycloakStackProps) :
  exists this kp,
    construct allocateLogicalId KeycloakVersion_toString VERSION flags
    = Normal (tt, this)
    /\ composer_props (base this) = Some kp
    /\ flat_map snd (_paramGroup (base this))
       = map Some (declared_parameters (base this))
    /\ option_map (map Label_default) (exportGroups (base this))
       = Some (["Application Load Balancer Settings"]
                 ++ (if truthy (auroraServerless (nullish_or flags no_props))
                     then [] else ["Database Instance Settings"])
                 ++ (if truthy (fromExistingVPC (nullish_or flags no_props))
                     then ["VPC Settings"] else [])
                 ++ ["AutoScaling Settings"; "Environment variable";
                     "Keycloak Version"])%list.
Proof.
  each_flags flags; run_constructor; split; reflexivity.
Qed.

(** X12. Every default the constructor declares meets the constraints
    declared with it, for every way of passing the flags: numeric
    defaults are at least the minimum value, and the default instance
    class is one of the allowed values, which are pairwise distinct. *)
Theorem declared_defaults_meet_their_constraints
  (VERSION : option string) (flags : option KeycloakStackProps) :
  exists this kp,
    construct allocateLogicalId KeycloakVersion_toString VERSION flags
    = Normal (tt, this)
    /\ composer_props (base this) = Some kp
    /\ forallb (fun p => default_within_constraints (props p))
               (declared_parameters (base this)) = true
    /\ Forall (fun p =>
                 match CfnParameterProps.allowedValues (props p) with
                 | Some values => NoDup values
                 | None => True
                 end)
              (declared_parameters (base this)).
Proof.
  assert (NoDup INSTANCE_TYPES) as Hnd
    by (apply NoDup_when_distinct; vm_compute; reflexivity).
  each_flags flags; run_constructor;
    (split; [vm_compute; reflexivity|]);
    repeat (constructor; try exact I; try exact Hnd).
Qed.

(** X13. The certificate handed to the composer is the value of the
    declared [CertificateArn] parameter, a string of minimum length 5
    without default: it resolves to the supplied value and to nothing
    when none is supplied. *)
Theorem certificate_is_a_required_parameter
  (VERSION : option string) (flags : option KeycloakStackProps)
  (supplied : Supplied) :
  exists this kp,
    construct allocateLogicalId KeycloakVersion_toString VERSION flags
    = Normal (tt, this)
    /\ composer_props (base this) = Some kp
    /\ exists p,
         find_parameter "CertificateArn" (base this) = Some p
         /\ KeyCloakProps.certificateArn kp = valueAsString p
         /\ props p
            = CfnParameterProps.mk
                (Some "String")
                (Some "Certificate Arn for Application Load Balancer")
                (Some 5%Z) None None None
         /\ resolve_string supplied (KeyCloakProps.certificateArn kp)
            = supplied (logicalId p).
Proof.
  each_flags flags; run_constructor;
    eexists; (repeat split; try reflexivity);
    evaluate; destruct (supplied _); reflexivity.
Qed.

(** X14. The autoscaling maximum and target handed to the composer are
    the values of [MaxContainers] and [AutoScalingTargetCpuUtilization],
    resolving to the supplied values or to 10 and 75; the composer's
    environment has the single variable JAVA_OPTS, the value of the
    unconstrained [JavaOpts] parameter, which has no default. *)
Theorem autoscaling_bounds_and_environment
  (VERSION : option string) (flags : option KeycloakStackProps)
  (supplied : Supplied) :
  exists this kp,
    construct allocateLogicalId KeycloakVersion_toString VERSION flags
    = Normal (tt, this)
    /\ composer_props (base this) = Some kp
    /\ exists pmax ptarget pjava,
         find_parameter "MaxContainers" (base this) = Some pmax
         /\ find_parameter "AutoScalingTargetCpuUtilization" (base this)
            = Some ptarget
         /\ find_parameter "JavaOpts" (base this) = Some pjava
         /\ AutoScaleTask.max (KeyCloakProps.autoScaleTask kp)
            = valueAsNumber pmax
         /\ AutoScaleTask.targetCpuUtilization (KeyCloakProps.autoScaleTask kp)
            = valueAsNumber ptarget
         /\ KeyCloakProps.env kp = set empty "JAVA_OPTS" (valueAsString pjava)
         /\ resolve_number supplied (valueAsNumber pmax)
            = Some (nullish_or (supplied (logicalId pmax)) (VNumber 10))
         /\ resolve_number supplied (valueAsNumber ptarget)
            = Some (nullish_or (supplied (logicalId ptarget)) (VNumber 75))
         /\ resolve_string supplied (valueAsString pjava)
            = supplied (logicalId pjava)
         /\ props pjava
            = CfnParameterProps.mk
                (Some "String") (Some "JAVA_OPTS environment variable")
                None None None None.
Proof.
  each_flags flags; run_constructor;
    eexists; eexists; eexists; (repeat split; try reflexivity);
    evaluate; destruct (supplied _); reflexivity.
Qed.

(** X15. What the composer receives is what the instance keeps: the six
    settings fields are handed over unchanged, and the raw
    [auroraServerless] flag is forwarded as the caller gave it. *)
Theorem composer_receives_the_instance_settings
  (VERSION : option string) (flags : option KeycloakStackProps) :
  exists this kp,
    construct allocateLogicalId KeycloakVersion_toString VERSION flags
    = Normal (tt, this)
    /\ composer_props (base this) = Some kp
    /\ _keycloakSettings this
       = {| KeycloakSettings.certificateArn := KeyCloakProps.certificateArn kp;
            KeycloakSettings.vpc := KeyCloakProps.vpc kp;
            KeycloakSettings.publicSubnets := KeyCloakProps.publicSubnets kp;
            KeycloakSettings.privateSubnets := KeyCloakProps.privateSubnets kp;
            KeycloakSettings.databaseSubnets := KeyCloakProps.databaseSubnets kp;
            KeycloakSettings.databaseInstanceType :=
              KeyCloakProps.databaseInstanceType kp |}
    /\ KeyCloakProps.auroraServerless kp
       = auroraServerless (nullish_or flags no_props).
Proof.
  each_flags flags; run_constructor; split; reflexivity.
Qed.

(** X16. Only the truthiness of the flags matters to the template: for
    every way of passing them, the stack left behind (description,
    metadata, registry, settings, declared parameters) is the one built
    from the flags replaced by their truthiness, and the composer
    receives the same properties apart from the raw [auroraServerless]
    flag. *)
Theorem only_truthiness_of_flags_matters
  (VERSION : option string) (flags : option KeycloakStackProps) :
  exists this kp this_t kp_t,
    construct allocateLogicalId KeycloakVersion_toString VERSION flags
    = Normal (tt, this)
    /\ composer_props (base this) = Some kp
    /\ construct allocateLogicalId KeycloakVersion_toString VERSION
         (truthiness flags)
       = Normal (tt, this_t)
    /\ composer_props (base this_t) = Some kp_t
    /\ _keycloakSettings this = _keycloakSettings this_t
    /\ templateOptions (base this) = templateOptions (base this_t)
    /\ _paramGroup (base this) = _paramGroup (base this_t)
    /\ declared_parameters (base this) = declared_parameters (base this_t)
    /\ kp_t
       = {| KeyCloakProps.vpc := KeyCloakProps.vpc kp;
            KeyCloakProps.publicSubnets := KeyCloakProps.publicSubnets kp;
            KeyCloakProps.privateSubnets := KeyCloakProps.privateSubnets kp;
            KeyCloakProps.databaseSubnets := KeyCloakProps.databaseSubnets kp;
            KeyCloakProps.certificateArn := KeyCloakProps.certificateArn kp;
            KeyCloakProps.auroraServerless :=
              Some (truthy (KeyCloakProps.auroraServerless kp));
            KeyCloakProps.databaseInstanceType :=
              KeyCloakProps.databaseInstanceType kp;
            KeyCloakProps.stickinessCookieDuration :=
              KeyCloakProps.stickinessCookieDuration kp;
            KeyCloakProps.nodeCount := KeyCloakProps.nodeCount kp;
            KeyCloakProps.autoScaleTask := KeyCloakProps.autoScaleTask kp;
            KeyCloakProps.env := KeyCloakProps.env kp;
            KeyCloakProps.keycloakVersion := KeyCloakProps.keycloakVersion kp |}.
Proof.
  each_flags flags;
    eexists; eexists; eexists; eexists;
    (split; [evaluate; reflexivity|]);
    (split; [evaluate; reflexivity|]);
    (split; [evaluate; reflexivity|]);
    (split; [evaluate; reflexivity|]);
    evaluate; repeat split; reflexivity.
Qed.

(** X17. The two modes do not interfere: the instance-class field and
    the declaration of its parameter are what they are with the
    existing-network flag left out, and the four network fields are what
    they are with the serverless flag left out; so neither depends on the
    other flag. *)
Theorem modes_do_not_interfere
  (VERSION : option string) (serverless existing : option bool) :
  exists this kp this_v kp_v this_s kp_s,
    construct allocateLogicalId KeycloakVersion_toString VERSION
      (Some {| auroraServerless := serverless; fromExistingVPC := existing |})
    = Normal (tt, this)
    /\ composer_props (base this) = Some kp
    /\ construct allocateLogicalId KeycloakVersion_toString VERSION
         (Some {| auroraServerless := serverless; fromExistingVPC := None |})
       = Normal (tt, this_v)
    /\ composer_props (base this_v) = Some kp_v
    /\ construct allocateLogicalId KeycloakVersion_toString VERSION
         (Some {| auroraServerless := None; fromExistingVPC := existing |})
       = Normal (tt, this_s)
    /\ composer_props (base this_s) = Some kp_s
    /\ KeyCloakProps.databaseInstanceType kp
       = KeyCloakProps.databaseInstanceType kp_v
    /\ find_parameter "DatabaseInstanceType" (base this)
       = find_parameter "DatabaseInstanceType" (base this_v)
    /\ KeyCloakProps.vpc kp = KeyCloakProps.vpc kp_s
    /\ KeyCloakProps.publicSubnets kp = KeyCloakProps.publicSubnets kp_s
    /\ KeyCloakProps.privateSubnets kp = KeyCloakProps.privateSubnets kp_s
    /\ KeyCloakProps.databaseSubnets kp = KeyCloakProps.databaseSubnets kp_s.
Proof.
  destruct serverless as [[|]|]; destruct existing as [[|]|];
    do 6 eexists;
    (split; [evaluate; reflexivity|]);
    (split; [evaluate; reflexivity|]);
    (split; [evaluate; reflexivity|]);
    (split; [evaluate; reflexivity|]);
    (split; [evaluate; reflexivity|]);
    (split; [evaluate; reflexivity|]);
    evaluate; repeat split; reflexivity.
Qed.

(** X18. With an existing network, the network handed to the composer is
    the one imported as "VpcAttr": its id is the value of the [VpcId]
    parameter, its address range is left to [AWS::NoValue], its zones are
    "a" and "b", each subnet selection is the imported network's own
    subnet list of that kind, and the three kinds read three different
    parameters.  Without one, nothing is imported. *)
Theorem imported_network_is_handed_over
  (VERSION : option string) (flags : option KeycloakStackProps) :
  exists this kp,
    construct allocateLogicalId KeycloakVersion_toString VERSION flags
    = Normal (tt, this)
    /\ composer_props (base this) = Some kp
    /\ match KeyCloakProps.vpc kp with
       | Some network =>
           truthy (fromExistingVPC (nullish_or flags no_props)) = true
           /\ In (ImportedVpcConstruct "VpcAttr" network) (children (base this))
           /\ (exists pvpc,
                 find_parameter "VpcId" (base this) = Some pvpc
                 /\ IVpc.vpcId network = valueAsString pvpc)
           /\ IVpc.vpcCidrBlock network = Aws_NO_VALUE
           /\ IVpc.availabilityZones network = ["a"; "b"]
           /\ KeyCloakProps.publicSubnets kp
              = Some {| subnets := IVpc.publicSubnets network |}
           /\ KeyCloakProps.privateSubnets kp
              = Some {| subnets := IVpc.privateSubnets network |}
           /\ KeyCloakProps.databaseSubnets kp
              = Some {| subnets := IVpc.isolatedSubnets network |}
           /\ List.length (IVpc.publicSubnets network)
              = List.length (IVpc.availabilityZones network)
           /\ List.length (IVpc.privateSubnets network)
              = List.length (IVpc.availabilityZones network)
           /\ List.length (IVpc.isolatedSubnets network)
              = List.length (IVpc.availabilityZones network)
       | None =>
           truthy (fromExistingVPC (nullish_or flags no_props)) = false
           /\ ~ In "VpcAttr" (map construct_id (children (base this)))
       end.
Proof.
  each_flags flags; run_constructor;
    first
      [ split; [reflexivity | intuition discriminate]
      | (split; [reflexivity|]);
        (split; [repeat (first [left; reflexivity | right])|]);
        (split; [eexists; split; reflexivity|]);
        repeat split; reflexivity ].
Qed.

End ConstructorDetails.

(** ** Concrete runs of the further properties *)

(** A second label "B" registered after "A" is exported after it. *)
Lemma new_label_is_exported_last_witness :
  addGroupParam (set empty "A" [Some (parameter_named "a")]) new_SolutionStack
  = Normal (tt, stack_with_group_A)
  /\ get (_paramGroup stack_with_group_A) "__proto__" = None
  /\ get (_paramGroup stack_with_group_A) "B" = None
  /\ is_index "B" = false
  /\ inherited_name "B" = false
  /\ exists s2,
       addGroupParam (set empty "B" [Some (parameter_named "b"); None])
                     stack_with_group_A
       = Normal (tt, s2)
       /\ exportGroups s2
          = Some [ {| Label_default := "A"; Parameters := ["a"] |};
                   {| Label_default := "B"; Parameters := ["b"] |} ].
Proof.
  split; [reflexivity|]. split; [reflexivity|]. split; [reflexivity|].
  split; [reflexivity|]. split; [reflexivity|].
  destruct (@new_label_is_exported_last
              (set empty "A" [Some (parameter_named "a")])
              new_SolutionStack stack_with_group_A
              "B" [Some (parameter_named "b"); None]
              eq_refl eq_refl eq_refl eq_refl eq_refl)
    as (s2 & before & Hrun & Hbefore & Hafter).
  exists s2. split; [exact Hrun|].
  rewrite Hafter. vm_compute in Hbefore. injection Hbefore as <-. reflexivity.
Defined.

(** Label "A" registered again keeps the single exported label and puts
    the new identifier first. *)
Lemma reregistered_label_keeps_its_place_witness :
  addGroupParam (set empty "A" [Some (parameter_named "a")]) new_SolutionStack
  = Normal (tt, stack_with_group_A)
  /\ get (_paramGroup stack_with_group_A) "A" = Some [Some (parameter_named "a")]
  /\ exists s2 after,
       addGroupParam (set empty "A" [Some (parameter_named "z")])
                     stack_with_group_A
       = Normal (tt, s2)
       /\ exportGroups s2 = Some after
       /\ map Label_default after = ["A"]
       /\ group_of "A" after = Some ["z"; "a"].
Proof.
  split; [reflexivity|]. split; [reflexivity|].
  destruct (@reregistered_label_keeps_its_place
              (set empty "A" [Some (parameter_named "a")])
              new_SolutionStack stack_with_group_A
              "A" [Some (parameter_named "a")] [Some (parameter_named "z")]
              eq_refl eq_refl)
    as (s2 & before & after & Hrun & Hbefore & Hafter & Hlabels & Hgroup & _).
  exists s2, after. split; [exact Hrun|]. split; [exact Hafter|].
  vm_compute in Hbefore. injection Hbefore as <-.
  split; [exact Hlabels | exact Hgroup].
Defined.

(** Two named parameters under one label are both exported, in order. *)
Lemma usable_parameters_are_all_exported_witness :
  inherited_name "G" = false
  /\ Forall (fun p => logicalId p <> "") [parameter_named "a"; parameter_named "b"]
  /\ exists s',
       addGroupParam
         (set empty "G" (map Some [parameter_named "a"; parameter_named "b"]))
         new_SolutionStack
       = Normal (tt, s')
       /\ exported_group "G" s' = Some ["a"; "b"].
Proof.
  assert (Forall (fun p => logicalId p <> "")
                 [parameter_named "a"; parameter_named "b"]) as H
    by (repeat constructor; discriminate).
  split; [reflexivity|]. split; [exact H|].
  exact (@usable_parameters_are_all_exported
           "G" [parameter_named "a"; parameter_named "b"] eq_refl H).
Defined.


(** Registering "z" under "A" and "b" under "B" on the stack that holds
    "a" under "A". *)
Lemma one_registration_prepends_and_reexports_witness :
  get (_paramGroup stack_with_group_A) "__proto__" = None
  /\ get (set (set empty "A" [Some (parameter_named "z")])
              "B" [Some (parameter_named "b")]) "__proto__" = None
  /\ exists s',
       addGroupParam
         (set (set empty "A" [Some (parameter_named "z")])
              "B" [Some (parameter_named "b")])
         stack_with_group_A
       = Normal (tt, s')
       /\ get (_paramGroup s') "A"
          = Some [Some (parameter_named "z"); Some (parameter_named "a")]
       /\ exported_group "A" s' = Some ["z"; "a"]
       /\ exported_group "B" s' = Some ["b"].
Proof.
  split; [reflexivity|]. split; [reflexivity|].
  destruct (@one_registration_prepends_and_reexports
              (set (set empty "A" [Some (parameter_named "z")])
                   "B" [Some (parameter_named "b")])
              stack_with_group_A eq_refl eq_refl)
    as (s' & Hrun & Hget & Hexp & _).
  exists s'. split; [exact Hrun|].
  pose proof (Hget "A" eq_refl) as HA.
  pose proof (Hexp "A" eq_refl) as EA.
  pose proof (Hexp "B" eq_refl) as EB.
  rewrite (Hget "B" eq_refl) in EB. rewrite HA in EA.
  split; [exact HA|]. split; [exact EA | exact EB].
Defined.

(** Three undefined entries under "G" on a fresh stack. *)
Lemma empty_registrations_still_export_witness :
  inherited_name "G" = false
  /\ exists s',
       addGroupParam (set empty "G" [None; None; None]) new_SolutionStack
       = Normal (tt, s')
       /\ exportGroups s'
          = Some [ {| Label_default := "G"; Parameters := [] |} ].
Proof.
  split; [reflexivity|].
  exact (proj2 (@empty_registrations_still_export
                  new_SolutionStack "G" 3 eq_refl)).
Defined.
